(** * Canonical allergen definitions: a verified model

    Shallow embedding of [apps/api/app/allergen_canonical.py]: the static
    table of canonical allergens, the two indexes derived from it, the two
    certainty maps, and the four public functions
    [canonicalize_allergen], [canonical_allergen_from_label],
    [normalize_certainty] and [certainty_to_ui].

    Conventions of the model.
    - A Python [str] is a Rocq [string]; each character stands for one code
      point in the range U+0000..U+00FF.  [str.lower], [str.isspace] and the
      regular-expression class [\s] are modelled on that range.
    - A Python [dict] whose iteration order is observed (the certainty rules)
      is an association list in insertion order; a [dict] that is only read
      with [get] (the two allergen indexes) is a [gmap].
    - A call that may raise returns a [result]; [None] is [option]'s [None]
      for results and [PyNone] for arguments.  Three faults occur: a missing
      method ([AttributeError]), the conversion to text of a number with
      more digits than the interpreter's limit ([ValueError]), the lookup
      of a value that cannot be hashed ([TypeError]). *)

From Stdlib Require Import ZArith Ascii String DecimalString.
From stdpp Require Import gmap strings list fin_maps.

Local Open Scope string_scope.

(** ** Python strings *)

Module PyString.

Definition code (c : ascii) : N := N_of_ascii c.

(** [str.isspace] on one character of the range U+0000..U+00FF: the
    controls U+0009..U+000D and U+001C..U+001F, the space, U+0085 and
    U+00A0.  The class [\s] of [re] on [str] patterns is the same set. *)
Definition isspace (c : ascii) : bool :=
  let n := code c in
  ((9 <=? n) && (n <=? 13) || (28 <=? n) && (n <=? 32)
   || (n =? 133) || (n =? 160))%N.

(** [str.lower] on one character: A..Z, and the upper-case letters of the
    Latin-1 supplement (U+00C0..U+00DE without the sign U+00D7), move up by
    32; every other character is kept. *)
Definition lower_char (c : ascii) : ascii :=
  let n := code c in
  if ((65 <=? n) && (n <=? 90)
      || (192 <=? n) && (n <=? 222) && negb (n =? 215))%N
  then ascii_of_N (n + 32) else c.

Fixpoint lower (s : string) : string :=
  match s with
  | EmptyString => EmptyString
  | String c r => String (lower_char c) (lower r)
  end.

Fixpoint lstrip (s : string) : string :=
  match s with
  | EmptyString => EmptyString
  | String c r => if isspace c then lstrip r else s
  end.

Fixpoint rstrip (s : string) : string :=
  match s with
  | EmptyString => EmptyString
  | String c r =>
      match rstrip r with
      | EmptyString => if isspace c then EmptyString else String c EmptyString
      | r' => String c r'
      end
  end.

(** [s.strip()] *)
Definition strip (s : string) : string := rstrip (lstrip s).

(** Truth value of a [str]: [not text] holds of the empty string only. *)
Definition truthy (s : string) : bool :=
  match s with EmptyString => false | _ => true end.

(** [text.startswith(key)] *)
Definition startswith (text key : string) : bool := String.prefix key text.

(** [re.sub(r"\s+", " ", text)]: scanning from the left, every maximal run
    of white space is replaced by one space.  [in_run] tells that the
    previous character was white space, already replaced. *)
Fixpoint collapse_from (in_run : bool) (s : string) : string :=
  match s with
  | EmptyString => EmptyString
  | String c r =>
      if isspace c
      then (if in_run then collapse_from true r
            else String " " (collapse_from true r))
      else String c (collapse_from false r)
  end.

Definition collapse_whitespace (s : string) : string :=
  collapse_from false s.

(** [", ".join(xs)] and friends *)
Fixpoint join (sep : string) (xs : list string) : string :=
  match xs with
  | [] => EmptyString
  | [x] => x
  | x :: rest => x +:+ sep +:+ join sep rest
  end.

Definition contains_char (c : ascii) (s : string) : bool :=
  existsb (fun d => if ascii_dec c d then true else false)
          (list_ascii_of_string s).

Definition hexdigit (n : N) : ascii :=
  if (n <? 10)%N then ascii_of_N (48 + n) else ascii_of_N (87 + n).

Definition backslash : ascii := ascii_of_N 92.
Definition single_quote : ascii := ascii_of_N 39.
Definition double_quote : ascii := ascii_of_N 34.

(** [\xhh] escape with lower-case digits *)
Definition hex_escape (c : ascii) : string :=
  String backslash (String "x"
    (String (hexdigit (code c / 16))
       (String (hexdigit (code c mod 16)) EmptyString))).

(** [str.isprintable] for a character above U+007F of the modelled range:
    the C1 controls, the no-break space and the soft hyphen are not. *)
Definition printable_high (c : ascii) : bool :=
  let n := code c in (161 <=? n)%N && negb (n =? 173)%N.

Definition repr_char (quote c : ascii) : string :=
  let n := code c in
  if (if ascii_dec c quote then true else false) || (n =? 92)%N
  then String backslash (String c EmptyString)
  else if (n =? 9)%N then String backslash "t"
  else if (n =? 10)%N then String backslash "n"
  else if (n =? 13)%N then String backslash "r"
  else if ((n <? 32) || (n =? 127))%N then hex_escape c
  else if (n <? 127)%N then String c EmptyString
  else if printable_high c then String c EmptyString else hex_escape c.

Fixpoint repr_body (quote : ascii) (s : string) : string :=
  match s with
  | EmptyString => EmptyString
  | String c r => repr_char quote c +:+ repr_body quote r
  end.

(** [repr(s)] of a [str]: single quotes, unless the text has a single
    quote and no double quote. *)
Definition repr (s : string) : string :=
  let quote : ascii :=
    if contains_char single_quote s && negb (contains_char double_quote s)
    then double_quote else single_quote in
  String quote (repr_body quote s +:+ String quote EmptyString).

(** [repr(t)] of a tuple of [str] *)
Definition repr_tuple (t : list string) : string :=
  match t with
  | [] => "()"
  | [x] => "(" +:+ repr x +:+ ",)"
  | _ => "(" +:+ join ", " (map repr t) +:+ ")"
  end.

End PyString.

(** ** The data model *)

(** The frozen dataclass [CanonicalAllergen]; the two tuples are lists. *)
Record CanonicalAllergen : Type := {
  slug : string;
  label : string;
  legacy_codes : list string;
  aliases : list string
}.

#[global] Instance CanonicalAllergen_eq_dec : EqDecision CanonicalAllergen.
Proof. solve_decision. Defined.

Definition _CANONICAL_DATA : list CanonicalAllergen :=
  [
    {| slug := "wheat"; label := "Wheat"; legacy_codes := [];
       aliases :=
         ["wheat"; "gluten"; "durum wheat"; "semolina"; "farina"; "flour";
          "bread"; "cereal"; "cereals"] |};
    {| slug := "barley"; label := "Barley"; legacy_codes := [];
       aliases :=
         ["barley"; "malt"; "hordeum"] |};
    {| slug := "rye"; label := "Rye"; legacy_codes := [];
       aliases :=
         ["rye"; "pumpernickel"; "secale"] |};
    {| slug := "oats"; label := "Oats"; legacy_codes := [];
       aliases :=
         ["oats"; "oatmeal"; "rolled oats"] |};
    {| slug := "spelt"; label := "Spelt"; legacy_codes := [];
       aliases :=
         ["spelt"; "dinkel"; "spelt flour"] |};
    {| slug := "triticale"; label := "Triticale"; legacy_codes := [];
       aliases :=
         ["triticale"; "triticale flour"] |};
    {| slug := "crustaceans"; label := "Crustaceans"; legacy_codes := [];
       aliases :=
         ["crustacean"; "shrimp"; "prawn"; "crab"; "lobster"; "crayfish";
          "shellfish"] |};
    {| slug := "eggs"; label := "Eggs"; legacy_codes := [];
       aliases :=
         ["egg"; "eggs"; "albumen"; "meringue"] |};
    {| slug := "fish"; label := "Fish"; legacy_codes := [];
       aliases :=
         ["fish"; "salmon"; "cod"; "trout"; "haddock"; "tuna"; "bass"] |};
    {| slug := "peanuts"; label := "Peanuts"; legacy_codes := [];
       aliases :=
         ["peanut"; "peanuts"; "groundnut"; "groundnuts"; "satay";
          "arachis"] |};
    {| slug := "soybeans"; label := "Soybeans"; legacy_codes := [];
       aliases :=
         ["soy"; "soya"; "soybean"; "soybeans"; "edamame"; "tofu";
          "tempeh"; "lecithin"] |};
    {| slug := "milk"; label := "Milk"; legacy_codes := [];
       aliases :=
         ["milk"; "dairy"; "lactose"; "cheese"; "butter"; "cream"; "yogurt"] |};
    {| slug := "tree_nuts"; label := "Tree nuts"; legacy_codes := [];
       aliases :=
         ["nut"; "nuts"; "almond"; "almonds"; "hazelnut"; "hazelnuts";
          "walnut"; "walnuts"; "cashew"; "cashews"; "pecan"; "pecans";
          "brazil nut"; "brazil nuts"; "pistachio"; "pistachios";
          "macadamia"; "macadamia nut"] |};
    {| slug := "celery"; label := "Celery"; legacy_codes := [];
       aliases :=
         ["celery"; "celeriac"; "apium"] |};
    {| slug := "mustard"; label := "Mustard"; legacy_codes := [];
       aliases :=
         ["mustard"; "dijon"; "wholegrain"; "yellow mustard";
          "brown mustard"] |};
    {| slug := "sesame"; label := "Sesame seeds"; legacy_codes := [];
       aliases :=
         ["sesame"; "sesame seed"; "sesame seeds"; "tahini"; "gomasio"] |};
    {| slug := "sulphites"; label := "Sulphur dioxide & sulphites"; legacy_codes := [];
       aliases :=
         ["sulphite"; "sulfite"; "sulphites"; "sulfites"; "so2";
          "preservative"; "e220"; "e221"; "e222"; "e223"; "e224"; "e226";
          "e227"; "e228"] |};
    {| slug := "lupin"; label := "Lupin"; legacy_codes := [];
       aliases :=
         ["lupin"; "lupine"; "lupini"; "lupin flour"] |};
    {| slug := "molluscs"; label := "Molluscs"; legacy_codes := [];
       aliases :=
         ["mollusc"; "molluscs"; "mussel"; "mussels"; "oyster"; "oysters";
          "clam"; "octopus"; "squid"; "scallop"; "snail"] |};
    {| slug := "meat"; label := "Meat or animal derivative"; legacy_codes := [];
       aliases :=
         ["meat"; "beef"; "pork"; "chicken"; "lamb"; "steak"; "bacon";
          "ham"; "sausage"; "gelatin"; "gelatine"; "lard"; "animal fat";
          "animal derivative"] |};
    {| slug := "honey"; label := "Honey"; legacy_codes := [];
       aliases :=
         ["honey"; "bee honey"; "raw honey"] |}
  ].

(** ** Exceptions and values *)

Inductive PyExn : Type :=
| AttributeError (attr : string)
| ValueError
| TypeError.

Inductive result (A : Type) : Type :=
| Ok (a : A)
| Raise (e : PyExn).

Arguments Ok {A} a.
Arguments Raise {A} e.

#[global] Instance PyExn_eq_dec : EqDecision PyExn.
Proof. solve_decision. Defined.

#[global] Instance result_eq_dec {A} `{EqDecision A} : EqDecision (result A).
Proof. solve_decision. Defined.

#[global] Instance result_ret : MRet result := fun _ a => Ok a.
#[global] Instance result_bind : MBind result :=
  fun _ _ f r => match r with Ok a => f a | Raise e => Raise e end.

(** The call comes back with a value. *)
Definition returns {A} (r : result A) : Prop := exists a, r = Ok a.

(** The values the functions are applied to: [None], a [str], an [int], a
    [bool], an instance of [CanonicalAllergen], a [list] of [str]. *)
Inductive PyValue : Type :=
| PyNone
| PyStr (s : string)
| PyInt (z : Z)
| PyBool (b : bool)
| PyCanonical (e : CanonicalAllergen)
| PyList (items : list string).

#[global] Instance PyValue_eq_dec : EqDecision PyValue.
Proof. solve_decision. Defined.

(** Truth value, as tested by [if not value]. *)
Definition py_truthy (v : PyValue) : bool :=
  match v with
  | PyNone => false
  | PyStr s => PyString.truthy s
  | PyInt z => negb (z =? 0)%Z
  | PyBool b => b
  | PyCanonical _ => true
  | PyList items => match items with [] => false | _ => true end
  end.

(** [repr] of the dataclass, as generated by [@dataclass]. *)
Definition dataclass_repr (e : CanonicalAllergen) : string :=
  "CanonicalAllergen(slug=" +:+ PyString.repr (slug e)
  +:+ ", label=" +:+ PyString.repr (label e)
  +:+ ", legacy_codes=" +:+ PyString.repr_tuple (legacy_codes e)
  +:+ ", aliases=" +:+ PyString.repr_tuple (aliases e) +:+ ")".

(** The text that [str(value)] gives when it returns: the text itself, the
    decimal digits of a number with its sign, the names of the constants,
    the [repr] of the dataclass, the [repr]s of the items of a list between
    brackets. *)
Definition py_text (v : PyValue) : string :=
  match v with
  | PyNone => "None"
  | PyStr s => s
  | PyInt z => NilZero.string_of_int (Z.to_int z)
  | PyBool true => "True"
  | PyBool false => "False"
  | PyCanonical e => dataclass_repr e
  | PyList items => "[" +:+ PyString.join ", " (map PyString.repr items) +:+ "]"
  end.

(** The interpreter's limit on the conversion of an [int] to decimal text
    ([sys.get_int_max_str_digits()], 4300 unless configured otherwise). *)
Definition int_max_str_digits : nat := 4300.

(** The number of decimal digits of a number, the sign not counted. *)
Definition decimal_digits (z : Z) : nat :=
  String.length (NilZero.string_of_int (Z.to_int (Z.abs z))).

Definition int_str_overflows (z : Z) : bool :=
  (int_max_str_digits <? decimal_digits z)%nat.

(** [str(value)]: the conversion of a number with more digits than the
    limit raises [ValueError]; every other conversion returns. *)
Definition py_str (v : PyValue) : result string :=
  match v with
  | PyInt z => if int_str_overflows z then Raise ValueError else Ok (py_text v)
  | _ => Ok (py_text v)
  end.

(** [value.strip()]: only a [str] has the method. *)
Definition py_method_strip (v : PyValue) : result string :=
  match v with
  | PyStr s => Ok (PyString.strip s)
  | _ => Raise (AttributeError "strip")
  end.

(** [d.get(key)] on a dict whose keys are all [str]: a list cannot be
    hashed, and of the other values only a [str] can be equal to a key. *)
Definition dict_get {V : Type} (d : gmap string V) (key : PyValue) : result (option V) :=
  match key with
  | PyStr s => Ok (d !! s)
  | PyList _ => Raise TypeError
  | _ => Ok None
  end.

(** [d.get(key)] on a dict kept in insertion order. *)
Fixpoint odict_get (d : list (string * string)) (key : string) : option string :=
  match d with
  | [] => None
  | (k, v) :: rest => if String.eqb k key then Some v else odict_get rest key
  end.

(** ** Derived indexes *)

(** [{item.slug: item for item in data}] *)
Definition by_slug (data : list CanonicalAllergen) : gmap string CanonicalAllergen :=
  foldl (fun m item => <[slug item := item]> m) ∅ data.

(** [{item.label.lower(): item for item in data}] *)
Definition by_label (data : list CanonicalAllergen) : gmap string CanonicalAllergen :=
  foldl (fun m item => <[PyString.lower (label item) := item]> m) ∅ data.

(** The inner loop [for alias in entry.aliases: lookup[alias.lower()] = entry] *)
Definition index_aliases (entry : CanonicalAllergen)
    (lookup : gmap string CanonicalAllergen) : gmap string CanonicalAllergen :=
  foldl (fun m alias => <[PyString.lower alias := entry]> m) lookup (aliases entry).

(** One round of the outer loop: the label first, then the aliases. *)
Definition index_entry (lookup : gmap string CanonicalAllergen)
    (entry : CanonicalAllergen) : gmap string CanonicalAllergen :=
  index_aliases entry (<[PyString.lower (label entry) := entry]> lookup).

Definition alias_lookup (data : list CanonicalAllergen) : gmap string CanonicalAllergen :=
  foldl index_entry ∅ data.

Definition CANONICAL_ALLERGENS : gmap string CanonicalAllergen :=
  by_slug _CANONICAL_DATA.

Definition _CANONICAL_BY_LABEL : gmap string CanonicalAllergen :=
  by_label _CANONICAL_DATA.

Definition _ALIAS_LOOKUP : gmap string CanonicalAllergen :=
  alias_lookup _CANONICAL_DATA.

(** ** Certainty maps *)

Definition _CERTAINTY_NORMALIZATION_RULES : list (string * string) :=
  [ ("certain", "certain");
    ("definite", "certain");
    ("explicit", "certain");
    ("sure", "certain");
    ("confirmed", "certain");
    ("direct", "certain");
    ("likely", "likely");
    ("probable", "likely");
    ("suggested", "likely");
    ("estimated", "likely");
    ("assumed", "likely");
    ("inferred", "likely");
    ("high", "likely");
    ("very high", "likely");
    ("high confidence", "likely");
    ("most likely", "likely");
    ("strong", "likely");
    ("medium", "likely");
    ("moderate", "likely");
    ("medium confidence", "likely");
    ("possible", "likely");
    ("potential", "likely");
    ("maybe", "likely");
    ("uncertain", "likely");
    ("low", "likely");
    ("low confidence", "likely");
    ("speculative", "likely");
    ("predicted", "likely");
    ("unknown", "likely");
    ("n/a", "likely");
    ("na", "likely");
    ("unspecified", "likely") ].

Definition _UI_CERTAINTY_MAP : gmap string string :=
  <["confirmed" := "confirmed"]>
    (<["certain" := "certain"]> (<["likely" := "likely"]> ∅)).

(** ** The public functions *)

Definition canonicalize_allergen (value : PyValue) : result (option CanonicalAllergen) :=
  match value with
  | PyNone => Ok None
  | PyCanonical e => Ok (Some e)
  | _ =>
      converted ← py_str value;
      let text := PyString.lower (PyString.strip converted) in
      if negb (PyString.truthy text) then Ok None
      else Ok (_ALIAS_LOOKUP !! text)
  end.

Definition canonical_allergen_from_label (label : PyValue) : result (option CanonicalAllergen) :=
  if negb (py_truthy label) then Ok None
  else
    stripped ← py_method_strip label;
    Ok (_CANONICAL_BY_LABEL !! PyString.lower stripped).

(** The loop [for key, target in rules.items(): if text.startswith(key):
    return target], with [None] when it runs to its end. *)
Fixpoint prefix_scan (items : list (string * string)) (text : string) : option string :=
  match items with
  | [] => None
  | (key, target) :: rest =>
      if PyString.startswith text key then Some target
      else prefix_scan rest text
  end.

Definition normalize_certainty (value : PyValue) : result (option string) :=
  match value with
  | PyNone => Ok None
  | _ =>
      converted ← py_str value;
      let text := PyString.lower (PyString.strip converted) in
      if negb (PyString.truthy text) then Ok None
      else
        let text := PyString.collapse_whitespace text in
        match odict_get _CERTAINTY_NORMALIZATION_RULES text with
        | Some normalized =>
            if PyString.truthy normalized then Ok (Some normalized)
            else Ok (prefix_scan _CERTAINTY_NORMALIZATION_RULES text)
        | None => Ok (prefix_scan _CERTAINTY_NORMALIZATION_RULES text)
        end
  end.

Definition certainty_to_ui (value : PyValue) : result string :=
  if negb (py_truthy value) then Ok "likely"
  else
    found ← dict_get _UI_CERTAINTY_MAP value;
    match found with
    | Some mapped => if PyString.truthy mapped then Ok mapped else Ok "likely"
    | None => Ok "likely"
    end.

(** [iter_all_aliases]: the keys of the combined index. *)
Definition iter_all_aliases : gset string := dom _ALIAS_LOOKUP.

(** ** Vocabulary of the statements *)

(** The texts an entry declares, and the keys it writes into the combined
    index, in the order of the writes. *)
Definition declared_texts (e : CanonicalAllergen) : list string :=
  label e :: aliases e.

Definition entry_keys (e : CanonicalAllergen) : list string :=
  map PyString.lower (declared_texts e).

Definition declares (k : string) (e : CanonicalAllergen) : bool :=
  bool_decide (k ∈ entry_keys e).

Definition has_label (k : string) (e : CanonicalAllergen) : bool :=
  bool_decide (PyString.lower (label e) = k).

(** Two entries of the table, named for the examples. *)
Definition oats_entry : CanonicalAllergen :=
  {| slug := "oats"; label := "Oats"; legacy_codes := [];
     aliases := ["oats"; "oatmeal"; "rolled oats"] |}.

Definition milk_entry : CanonicalAllergen :=
  {| slug := "milk"; label := "Milk"; legacy_codes := [];
     aliases := ["milk"; "dairy"; "lactose"; "cheese"; "butter"; "cream";
                 "yogurt"] |}.

(** An entry that is not in the table and declares "DAIRY" too. *)
Definition soured_entry : CanonicalAllergen :=
  {| slug := "soured"; label := "Soured milk"; legacy_codes := [];
     aliases := ["DAIRY"] |}.

(** [key] is a prefix of [text]. *)
Definition starts_with (text key : string) : Prop :=
  exists rest, text = key +:+ rest.

(** All the ways to cut a text at one of its spaces. *)
Fixpoint space_splits (a : string) : list (string * string) :=
  match a with
  | EmptyString => []
  | String c r =>
      (if ascii_dec c " " then [(EmptyString, r)] else [])
      ++ map (fun xy => (String c (fst xy), snd xy)) (space_splits r)
  end.

(** No two neighbours are both white space. *)
Fixpoint no_adjacent_spaces (s : string) : bool :=
  match s with
  | EmptyString => true
  | String c r =>
      match r with
      | EmptyString => true
      | String d _ => negb (PyString.isspace c && PyString.isspace d)
      end && no_adjacent_spaces r
  end.

(** The characters that are not white space, in order. *)
Fixpoint visible (s : string) : string :=
  match s with
  | EmptyString => EmptyString
  | String c r => if PyString.isspace c then visible r else String c (visible r)
  end.

(** Every white-space character is the plain space. *)
Fixpoint only_plain_spaces (s : string) : bool :=
  match s with
  | EmptyString => true
  | String c r =>
      (negb (PyString.isspace c) || bool_decide (c = " "%char))
      && only_plain_spaces r
  end.

Definition ui_values : list string := ["likely"; "certain"; "confirmed"].

(** The text [normalize_certainty] works on: converted, trimmed,
    lower-cased, white space collapsed. *)
Definition certainty_text (v : PyValue) : string :=
  PyString.collapse_whitespace (PyString.lower (PyString.strip (py_text v))).

(** The first rule, in the order of the table, whose key is a prefix of the
    text. *)
Definition first_prefix_rule (text : string) : option (string * string) :=
  find (fun kv => PyString.startswith text (fst kv))
       _CERTAINTY_NORMALIZATION_RULES.

Definition certainty_values : list string := ["certain"; "likely"].

(** Checks on the shipped tables, decided by evaluation. *)

(** A declared text is not empty and has no white space at either end. *)
Definition clean_text (a : string) : bool :=
  bool_decide (PyString.strip a = a) && PyString.truthy a.

(** Every text an entry declares is clean and leads back to that entry. *)
Definition table_resolves : bool :=
  forallb (fun e =>
    forallb (fun a =>
      clean_text a
      && bool_decide (_ALIAS_LOOKUP !! PyString.lower a = Some e))
      (declared_texts e)) _CANONICAL_DATA.

Definition labels_resolve : bool :=
  forallb (fun e =>
    clean_text (label e)
    && bool_decide (_CANONICAL_BY_LABEL !! PyString.lower (label e) = Some e))
    _CANONICAL_DATA.

(** The text [x], two spaces, [y]. *)
Definition doubled (xy : string * string) : string :=
  fst xy +:+ "  " +:+ snd xy.

(** No alias cut at a space and rejoined with two spaces is found. *)
Definition doubled_aliases_miss : bool :=
  forallb (fun e =>
    forallb (fun a =>
      forallb (fun xy =>
        bool_decide (_ALIAS_LOOKUP !! PyString.lower (doubled xy) = None)
        && bool_decide (canonicalize_allergen (PyStr (doubled xy)) = Ok None))
        (space_splits a)) (aliases e)) _CANONICAL_DATA.

(** Every rule key cut at a space and rejoined with two spaces is still
    normalized to the value of the key. *)
Definition doubled_rules_hit : bool :=
  forallb (fun kv =>
    forallb (fun xy =>
      bool_decide (normalize_certainty (PyStr (doubled xy)) = Ok (Some (snd kv))))
      (space_splits (fst kv))) _CERTAINTY_NORMALIZATION_RULES.

Definition rule_values_ok : bool :=
  forallb (fun kv =>
    PyString.truthy (snd kv) && bool_decide (snd kv ∈ certainty_values))
    _CERTAINTY_NORMALIZATION_RULES.

Definition rule_keys_ok : bool :=
  forallb (fun kv => PyString.truthy (fst kv)) _CERTAINTY_NORMALIZATION_RULES.

(** Every rule whose key begins with "high" maps to "likely". *)
Definition high_rules_likely : bool :=
  forallb (fun kv =>
    negb (PyString.startswith (fst kv) "high")
    || bool_decide (snd kv = "likely"))
    _CERTAINTY_NORMALIZATION_RULES.

(** ** Further vocabulary *)

(** An optional text handed on as an argument: the result of
    [normalize_certainty] given to [certainty_to_ui]. *)
Definition py_of_option (o : option string) : PyValue :=
  match o with
  | Some s => PyStr s
  | None => PyNone
  end.

Definition has_slug (k : string) (e : CanonicalAllergen) : bool :=
  bool_decide (slug e = k).

(** The keys of the rules that map to "certain", in the order of the table. *)
Definition certain_keys : list string :=
  ["certain"; "definite"; "explicit"; "sure"; "confirmed"; "direct"].

(** The text is empty or begins with a character that is not white space. *)
Definition head_visible (s : string) : Prop :=
  match s with
  | EmptyString => True
  | String c _ => PyString.isspace c = false
  end.

Definition is_letter (c : ascii) : bool :=
  let n := PyString.code c in ((97 <=? n) && (n <=? 122))%N.

(** The characters a decimal number can begin with. *)
Definition is_sign_or_digit (c : ascii) : bool :=
  let n := PyString.code c in ((n =? 45) || (48 <=? n) && (n <=? 57))%N.

Definition starts_with_letter (k : string) : bool :=
  match k with
  | EmptyString => false
  | String c _ => is_letter c
  end.

(** Further checks on the shipped tables, decided by evaluation. *)

Definition slugs_resolve : bool :=
  forallb (fun e => bool_decide (CANONICAL_ALLERGENS !! slug e = Some e))
    _CANONICAL_DATA.

(** Looking a slug up as an allergen text leads to its entry, except for
    the one slug written with an underscore. *)
Definition slugs_as_text : bool :=
  forallb (fun e =>
    bool_decide (canonicalize_allergen (PyStr (slug e))
                 = if bool_decide (slug e = "tree_nuts") then Ok None
                   else Ok (Some e)))
    _CANONICAL_DATA.

Definition index_keys_lettered : bool :=
  forallb (fun e => forallb starts_with_letter (entry_keys e)) _CANONICAL_DATA.

Definition rule_keys_lettered : bool :=
  forallb (fun kv => starts_with_letter (fst kv)) _CERTAINTY_NORMALIZATION_RULES.

(** Scanning for a prefix of a rule key itself ends on a rule of the same
    value. *)
Definition exact_agrees_with_scan : bool :=
  forallb (fun kv =>
    bool_decide (snd <$> first_prefix_rule (fst kv) = Some (snd kv)))
    _CERTAINTY_NORMALIZATION_RULES.

(** The rules that map to "certain" are the first six of the table. *)
Definition certain_rules_first : bool :=
  bool_decide (_CERTAINTY_NORMALIZATION_RULES
               = (map (fun k => (k, "certain")) certain_keys
                  ++ skipn 6 _CERTAINTY_NORMALIZATION_RULES)%list)
  && forallb (fun kv => bool_decide (snd kv = "likely"))
       (skipn 6 _CERTAINTY_NORMALIZATION_RULES).

(** * Properties *)

(** ** Strings *)

Section StringFacts.
Import PyString.

Lemma append_cons c s t : String c s +:+ t = String c (s +:+ t).
Proof. reflexivity. Qed.

Lemma isspace_lower_char c : isspace (lower_char c) = isspace c.
Proof. destruct c as [[] [] [] [] [] [] [] []]; reflexivity. Qed.

Lemma lower_char_idem c : lower_char (lower_char c) = lower_char c.
Proof. destruct c as [[] [] [] [] [] [] [] []]; reflexivity. Qed.

Lemma lower_idem s : lower (lower s) = lower s.
Proof. induction s as [|c r IH]; simpl; [done|]. by rewrite lower_char_idem, IH. Qed.

Lemma lower_lstrip s : lower (lstrip s) = lstrip (lower s).
Proof.
  induction s as [|c r IH]; simpl; [done|].
  rewrite isspace_lower_char. by destruct (isspace c).
Qed.

Lemma lower_rstrip s : lower (rstrip s) = rstrip (lower s).
Proof.
  induction s as [|c r IH]; simpl; [done|].
  rewrite <- IH, isspace_lower_char.
  destruct (rstrip r); simpl; [by destruct (isspace c)|done].
Qed.

Lemma lower_strip s : lower (strip s) = strip (lower s).
Proof. unfold strip. by rewrite lower_rstrip, lower_lstrip. Qed.

Lemma lower_empty s : lower s = EmptyString -> s = EmptyString.
Proof. by destruct s. Qed.

Lemma rstrip_cons_visible c r :
  isspace c = false -> rstrip (String c r) = String c (rstrip r).
Proof. intros Hc. simpl. rewrite Hc. by destruct (rstrip r). Qed.

Lemma rstrip_idem s : rstrip (rstrip s) = rstrip s.
Proof.
  induction s as [|c r IH]; simpl; [done|].
  destruct (rstrip r) as [|d r'] eqn:Hr.
  - destruct (isspace c) eqn:Hc; simpl; [done|]. by rewrite Hc.
  - change (rstrip (String c (String d r')) = String c (String d r')).
    simpl. simpl in IH. by rewrite IH.
Qed.

Lemma lstrip_head s :
  lstrip s = EmptyString \/
  exists c r, lstrip s = String c r /\ isspace c = false.
Proof.
  induction s as [|c r IH]; simpl; [by left|].
  destruct (isspace c) eqn:Hc; [done|]. right. by exists c, r.
Qed.

Lemma strip_idem s : strip (strip s) = strip s.
Proof.
  unfold strip. destruct (lstrip_head s) as [->|(c & r & -> & Hc)]; [done|].
  rewrite (rstrip_cons_visible _ _ Hc). simpl lstrip at 1. rewrite Hc.
  rewrite <- (rstrip_cons_visible _ _ Hc). apply rstrip_idem.
Qed.

(** Trimming and lower-casing a second time changes nothing. *)
Lemma normal_form_idem s :
  lower (strip (lower (strip s))) = lower (strip s).
Proof. by rewrite <- lower_strip, strip_idem, lower_idem. Qed.

Lemma startswith_spec text key :
  startswith text key = true <-> starts_with text key.
Proof.
  unfold startswith, starts_with. revert text.
  induction key as [|k key IH]; intros text.
  - split; [intros _; by exists text|by destruct text].
  - destruct text as [|t text]; simpl.
    + split; [done|]. by intros [rest ?].
    + destruct (ascii_dec k t) as [->|Hne].
      * rewrite IH. split; intros [rest Hr]; exists rest.
        -- by rewrite append_cons, Hr.
        -- rewrite append_cons in Hr. by injection Hr.
      * split; [done|]. intros [rest Hr]. rewrite append_cons in Hr. congruence.
Qed.

Lemma startswith_false text key :
  startswith text key = false <-> ~ starts_with text key.
Proof. rewrite <- startswith_spec. by destruct (startswith text key). Qed.

(** *** Collapsing white space *)

Lemma collapse_from_double_space b x y :
  collapse_from b (x +:+ String " " (String " " y))
  = collapse_from b (x +:+ String " " y).
Proof.
  revert b. induction x as [|c r IH]; intros b; simpl.
  - by destruct b.
  - destruct (isspace c); [destruct b|]; by rewrite IH.
Qed.

Lemma collapse_from_visible b s : visible (collapse_from b s) = visible s.
Proof.
  revert b. induction s as [|c r IH]; intros b; simpl; [done|].
  destruct (isspace c) eqn:Hc; [destruct b|]; simpl; rewrite ?Hc, ?IH; done.
Qed.

Lemma collapse_from_plain b s : only_plain_spaces (collapse_from b s) = true.
Proof.
  revert b. induction s as [|c r IH]; intros b; simpl; [done|].
  destruct (isspace c) eqn:Hc; [destruct b|]; simpl; rewrite ?Hc, ?IH; done.
Qed.

Lemma collapse_from_head_true s :
  match collapse_from true s with
  | EmptyString => True
  | String d _ => isspace d = false
  end.
Proof.
  induction s as [|c r IH]; simpl; [done|].
  destruct (isspace c) eqn:Hc; [done|]. by simpl.
Qed.

Lemma collapse_from_no_adjacent b s :
  no_adjacent_spaces (collapse_from b s) = true.
Proof.
  revert b. induction s as [|c r IH]; intros b; [done|].
  simpl collapse_from. destruct (isspace c) eqn:Hc.
  - destruct b; [apply IH|].
    simpl. rewrite IH, andb_true_r.
    pose proof (collapse_from_head_true r) as Hh.
    destruct (collapse_from true r); [done|]. simpl. by rewrite Hh.
  - simpl. rewrite IH, andb_true_r, Hc.
    by destruct (collapse_from false r).
Qed.

Lemma collapse_no_space s : visible s = s -> collapse_whitespace s = s.
Proof.
  unfold collapse_whitespace. induction s as [|c r IH]; simpl; [done|].
  destruct (isspace c) eqn:Hc.
  - intros Hv. exfalso.
    assert (Hlen : String.length (visible r) <= String.length r).
    { clear. induction r as [|d r IH]; simpl; [lia|].
      destruct (isspace d); simpl; lia. }
    rewrite Hv in Hlen. simpl in Hlen. lia.
  - intros [= Hv]. by rewrite IH.
Qed.

End StringFacts.

(** ** Index construction *)

Section IndexFacts.
Import PyString.
Implicit Types (m : gmap string CanonicalAllergen) (e : CanonicalAllergen).
Implicit Types (data : list CanonicalAllergen) (k : string).

Lemma find_app {A} (f : A -> bool) (l1 l2 : list A) :
  find f (l1 ++ l2)
  = match find f l1 with Some x => Some x | None => find f l2 end.
Proof. induction l1 as [|x l1 IH]; simpl; [done|]. by destruct (f x). Qed.

Lemma find_none_Forall {A} (f : A -> bool) (l : list A) :
  find f l = None <-> Forall (fun x => f x = false) l.
Proof.
  induction l as [|x l IH]; simpl.
  - split; [constructor|done].
  - rewrite Forall_cons, <- IH. destruct (f x); [|tauto].
    split; [done|]. by intros [? _].
Qed.

Lemma elem_of_rev_1 {A} (x : A) (l : list A) : x ∈ rev l -> x ∈ l.
Proof. rewrite !list_elem_of_In. apply in_rev. Qed.

Lemma elem_of_rev_2 {A} (x : A) (l : list A) : x ∈ l -> x ∈ rev l.
Proof. rewrite !list_elem_of_In. apply in_rev. Qed.

Lemma insert_all_lookup e (texts : list string) m k :
  foldl (fun m a => <[lower a := e]> m) m texts !! k
  = if bool_decide (k ∈ map lower texts) then Some e else m !! k.
Proof.
  revert m. induction texts as [|a texts IH]; intros m; simpl.
  - done.
  - rewrite IH. destruct (decide (k ∈ map lower texts)) as [Hin|Hout].
    + rewrite !bool_decide_true; [done| |done]. by apply elem_of_cons; right.
    + rewrite bool_decide_false by done.
      destruct (decide (lower a = k)) as [->|Hne].
      * rewrite lookup_insert_eq, bool_decide_true; [done|]. apply elem_of_cons; by left.
      * rewrite lookup_insert_ne by done. rewrite bool_decide_false; [done|].
        intros [?|?]%elem_of_cons; congruence.
Qed.

(** One entry overwrites exactly the keys it declares. *)
Lemma index_entry_lookup m e k :
  index_entry m e !! k = if declares k e then Some e else m !! k.
Proof.
  unfold index_entry, index_aliases, declares, entry_keys, declared_texts.
  rewrite insert_all_lookup. simpl map.
  destruct (decide (k ∈ map lower (aliases e))) as [Hin|Hout].
  - rewrite !bool_decide_true; [done| |done]. apply elem_of_cons; by right.
  - rewrite (bool_decide_false _ Hout).
    destruct (decide (lower (label e) = k)) as [<-|Hne].
    + rewrite lookup_insert_eq, bool_decide_true; [done|]. apply elem_of_cons; by left.
    + rewrite lookup_insert_ne by done. rewrite bool_decide_false; [done|].
      intros [?|?]%elem_of_cons; congruence.
Qed.

Lemma index_fold_lookup data m k :
  foldl index_entry m data !! k
  = match find (declares k) (rev data) with
    | Some e => Some e
    | None => m !! k
    end.
Proof.
  revert m. induction data as [|e data IH]; intros m; simpl; [done|].
  rewrite IH, find_app. destruct (find (declares k) (rev data)); [done|].
  simpl. rewrite index_entry_lookup. by destruct (declares k e).
Qed.

(** The combined index holds, for each key, the last entry of the table
    that declares it. *)
Lemma alias_lookup_last data k :
  alias_lookup data !! k = find (declares k) (rev data).
Proof.
  unfold alias_lookup. rewrite index_fold_lookup, lookup_empty.
  by destruct (find _ _).
Qed.

Lemma by_label_fold data m k :
  foldl (fun m item => <[lower (label item) := item]> m) m data !! k
  = match find (has_label k) (rev data) with
    | Some e => Some e
    | None => m !! k
    end.
Proof.
  revert m. induction data as [|e data IH]; intros m; simpl; [done|].
  rewrite IH, find_app. destruct (find (has_label k) (rev data)); [done|].
  simpl. unfold has_label. case_bool_decide as Hk.
  - subst k. by rewrite lookup_insert_eq.
  - by rewrite lookup_insert_ne.
Qed.

Lemma by_label_last data k :
  by_label data !! k = find (has_label k) (rev data).
Proof.
  unfold by_label. rewrite by_label_fold, lookup_empty. by destruct (find _ _).
Qed.

Lemma alias_lookup_split pre e post k :
  k ∈ entry_keys e ->
  (forall e', e' ∈ post -> k ∉ entry_keys e') ->
  alias_lookup (pre ++ e :: post) !! k = Some e.
Proof.
  intros Hk Hpost. rewrite alias_lookup_last, rev_app_distr. simpl.
  rewrite <- app_assoc, find_app.
  assert (find (declares k) (rev post) = None) as ->.
  { apply find_none_Forall, Forall_forall. intros e' He'%elem_of_rev_1.
    unfold declares. by apply bool_decide_eq_false, Hpost. }
  simpl. unfold declares at 1. by rewrite bool_decide_true.
Qed.

Lemma alias_lookup_Some data k e :
  alias_lookup data !! k = Some e -> e ∈ data /\ k ∈ entry_keys e.
Proof.
  rewrite alias_lookup_last. intros [Hin Hd]%find_some.
  apply in_rev, list_elem_of_In in Hin. split; [done|].
  unfold declares in Hd. by apply bool_decide_eq_true in Hd.
Qed.

Lemma alias_lookup_None data k :
  alias_lookup data !! k = None <->
  forall e, e ∈ data -> k ∉ entry_keys e.
Proof.
  rewrite alias_lookup_last, find_none_Forall, Forall_forall. unfold declares.
  split.
  - intros H e He. specialize (H e (elem_of_rev_2 _ _ He)).
    by apply bool_decide_eq_false in H.
  - intros H e He%elem_of_rev_1. apply bool_decide_eq_false. by apply H.
Qed.

Lemma by_label_None data k :
  by_label data !! k = None <->
  forall e, e ∈ data -> lower (label e) <> k.
Proof.
  rewrite by_label_last, find_none_Forall, Forall_forall. unfold has_label.
  split.
  - intros H e He. specialize (H e (elem_of_rev_2 _ _ He)).
    by apply bool_decide_eq_false in H.
  - intros H e He%elem_of_rev_1. apply bool_decide_eq_false. by apply H.
Qed.

End IndexFacts.

(** ** The shipped tables *)

Section TableFacts.
Import PyString.

Lemma table_resolves_ok : table_resolves = true.
Proof. vm_compute. reflexivity. Qed.

Lemma labels_resolve_ok : labels_resolve = true.
Proof. vm_compute. reflexivity. Qed.

Lemma doubled_aliases_miss_ok : doubled_aliases_miss = true.
Proof. vm_compute. reflexivity. Qed.

Lemma doubled_rules_hit_ok : doubled_rules_hit = true.
Proof. vm_compute. reflexivity. Qed.

Lemma rule_values_ok_ok : rule_values_ok = true.
Proof. vm_compute. reflexivity. Qed.

Lemma rule_keys_ok_ok : rule_keys_ok = true.
Proof. vm_compute. reflexivity. Qed.

Lemma high_rules_likely_ok : high_rules_likely = true.
Proof. vm_compute. reflexivity. Qed.

(** The rule table is written without a repeated key, so its list of items
    is the dict itself. *)
Lemma rule_keys_unique : NoDup (map fst _CERTAINTY_NORMALIZATION_RULES).
Proof. apply (bool_decide_unpack _). vm_compute. exact I. Qed.

Lemma clean_text_spec a : clean_text a = true -> strip a = a /\ a <> EmptyString.
Proof.
  unfold clean_text. intros [Hs Ht]%andb_true_iff.
  apply bool_decide_eq_true in Hs. split; [done|]. by intros ->.
Qed.

Lemma truthy_lower a : truthy (lower a) = truthy a.
Proof. by destruct a. Qed.

Lemma truthy_true a : a <> EmptyString -> truthy a = true.
Proof. by destruct a. Qed.

Lemma declared_text_resolves e a :
  e ∈ _CANONICAL_DATA -> a ∈ declared_texts e ->
  strip a = a /\ a <> EmptyString /\ _ALIAS_LOOKUP !! lower a = Some e.
Proof.
  intros He Ha. pose proof table_resolves_ok as H.
  unfold table_resolves in H. rewrite forallb_forall in H.
  specialize (H e (proj1 (list_elem_of_In _ _) He)).
  rewrite forallb_forall in H.
  specialize (H a (proj1 (list_elem_of_In _ _) Ha)).
  apply andb_true_iff in H as [[? ?]%clean_text_spec Hl].
  apply bool_decide_eq_true in Hl. repeat split; assumption.
Qed.

Lemma label_resolves e :
  e ∈ _CANONICAL_DATA ->
  strip (label e) = label e /\ label e <> EmptyString
  /\ _CANONICAL_BY_LABEL !! lower (label e) = Some e.
Proof.
  intros He. pose proof labels_resolve_ok as H.
  unfold labels_resolve in H. rewrite forallb_forall in H.
  specialize (H e (proj1 (list_elem_of_In _ _) He)).
  apply andb_true_iff in H as [[? ?]%clean_text_spec Hl].
  apply bool_decide_eq_true in Hl. repeat split; assumption.
Qed.

Lemma index_keys_lettered_ok : index_keys_lettered = true.
Proof. vm_compute. reflexivity. Qed.

Lemma rule_keys_lettered_ok : rule_keys_lettered = true.
Proof. vm_compute. reflexivity. Qed.

(** *** Conversion to text *)

Lemma py_str_text s : py_str (PyStr s) = Ok s.
Proof. reflexivity. Qed.

(** [str] raises for a number with too many digits and for nothing else. *)
Lemma py_str_cases v :
  py_str v = Ok (py_text v)
  \/ exists z, v = PyInt z /\ int_str_overflows z = true
               /\ py_str v = Raise ValueError.
Proof.
  destruct v as [|s|z|b|e|items]; try by left.
  unfold py_str. destruct (int_str_overflows z) eqn:Hz; [right|by left].
  by exists z.
Qed.

Lemma sign_or_digit_plain c :
  is_sign_or_digit c = true ->
  isspace c = false /\ lower_char c = c /\ is_letter c = false.
Proof. destruct c as [[] [] [] [] [] [] [] []]; by vm_compute. Qed.

(** The decimal text of a number begins with a digit or the minus sign. *)
Lemma int_text_head z :
  exists c r, py_text (PyInt z) = String c r /\ is_sign_or_digit c = true.
Proof.
  unfold py_text. destruct (Z.to_int z) as [d|d].
  - destruct d; by eexists _, _.
  - by eexists _, _.
Qed.

Lemma normal_form_head c r :
  isspace c = false ->
  lower (strip (String c r)) = String (lower_char c) (lower (rstrip r)).
Proof.
  intros Hc. unfold strip. simpl lstrip. rewrite Hc.
  by rewrite (rstrip_cons_visible _ _ Hc).
Qed.

Lemma int_normal_form z :
  exists c r,
    lower (strip (py_text (PyInt z))) = String c r
    /\ isspace c = false /\ is_letter c = false.
Proof.
  destruct (int_text_head z) as (c & r & Hstr & Hc).
  destruct (sign_or_digit_plain c Hc) as (Hsp & Hlow & Hlet).
  exists c, (lower (rstrip r)).
  by rewrite Hstr, (normal_form_head _ _ Hsp), Hlow.
Qed.

Lemma int_certainty_text z :
  exists c r, certainty_text (PyInt z) = String c r /\ is_letter c = false.
Proof.
  destruct (int_normal_form z) as (c & r & Hnf & Hsp & Hlet).
  exists c, (collapse_from false r). split; [|done].
  unfold certainty_text, collapse_whitespace. rewrite Hnf. simpl.
  by rewrite Hsp.
Qed.

(** A text that does not begin with a small letter is no key of the
    combined index, no key of the rules, and has no rule key as a prefix. *)
Lemma unlettered_text_unknown c r :
  is_letter c = false ->
  _ALIAS_LOOKUP !! String c r = None
  /\ first_prefix_rule (String c r) = None.
Proof.
  intros Hc. split.
  - apply alias_lookup_None. intros e He Hk.
    pose proof index_keys_lettered_ok as H. unfold index_keys_lettered in H.
    rewrite forallb_forall in H.
    specialize (H e (proj1 (list_elem_of_In _ _) He)).
    rewrite forallb_forall in H.
    specialize (H _ (proj1 (list_elem_of_In _ _) Hk)).
    simpl in H. congruence.
  - unfold first_prefix_rule. apply find_none_Forall, Forall_forall.
    intros [k v] Hin. pose proof rule_keys_lettered_ok as H.
    unfold rule_keys_lettered in H. rewrite forallb_forall in H.
    specialize (H _ (proj1 (list_elem_of_In _ _) Hin)).
    destruct k as [|d k]; [discriminate|].
    unfold fst, startswith. simpl in H. simpl.
    destruct (ascii_dec d c) as [->|]; [congruence|done].
Qed.

Lemma odict_get_in items key v :
  odict_get items key = Some v -> In (key, v) items.
Proof.
  induction items as [|[k w] items IH]; simpl; [done|].
  destruct (String.eqb_spec k key) as [->|Hne].
  - intros [= ->]. by left.
  - intros H. right. by apply IH.
Qed.

Lemma unlettered_text_no_rule c r :
  is_letter c = false ->
  odict_get _CERTAINTY_NORMALIZATION_RULES (String c r) = None.
Proof.
  intros Hc.
  destruct (odict_get _CERTAINTY_NORMALIZATION_RULES (String c r))
    as [v|] eqn:Hget; [|done].
  apply odict_get_in in Hget. pose proof rule_keys_lettered_ok as H.
  unfold rule_keys_lettered in H. rewrite forallb_forall in H.
  specialize (H _ Hget). simpl in H. congruence.
Qed.

Lemma prefix_scan_find (items : list (string * string)) (text : string) :
  prefix_scan items text
  = snd <$> find (fun kv => startswith text (fst kv)) items.
Proof.
  induction items as [|[k v] items IH]; simpl; [done|].
  by destruct (startswith text k).
Qed.

(** *** The functions, one equation each *)

(** [normalize_certainty] on a value other than [None]: the fault of the
    conversion if it raises, else the lookup of the normalized text. *)
Lemma normalize_value v :
  v <> PyNone ->
  normalize_certainty v
  = match py_str v with
    | Raise e => Raise e
    | Ok _ =>
        if truthy (lower (strip (py_text v)))
        then match odict_get _CERTAINTY_NORMALIZATION_RULES (certainty_text v) with
             | Some normalized =>
                 if truthy normalized then Ok (Some normalized)
                 else Ok (prefix_scan _CERTAINTY_NORMALIZATION_RULES (certainty_text v))
             | None => Ok (prefix_scan _CERTAINTY_NORMALIZATION_RULES (certainty_text v))
             end
        else Ok None
    end.
Proof.
  intros Hv. unfold certainty_text.
  destruct v as [|s|z|b|e|items]; [done|..]; unfold normalize_certainty.
  3: destruct b.
  all: try (unfold py_str; destruct (int_str_overflows z); [reflexivity|]).
  all: unfold py_str, mbind, result_bind;
    by destruct (truthy (lower (strip _))).
Qed.

Lemma normalize_returning v :
  v <> PyNone -> py_str v = Ok (py_text v) ->
  normalize_certainty v
  = if truthy (lower (strip (py_text v)))
    then match odict_get _CERTAINTY_NORMALIZATION_RULES (certainty_text v) with
         | Some normalized =>
             if truthy normalized then Ok (Some normalized)
             else Ok (prefix_scan _CERTAINTY_NORMALIZATION_RULES (certainty_text v))
         | None => Ok (prefix_scan _CERTAINTY_NORMALIZATION_RULES (certainty_text v))
         end
    else Ok None.
Proof. intros Hv Hstr. by rewrite (normalize_value v Hv), Hstr. Qed.

Lemma normalize_text s :
  normalize_certainty (PyStr s)
  = if truthy (lower (strip s))
    then match odict_get _CERTAINTY_NORMALIZATION_RULES (certainty_text (PyStr s)) with
         | Some normalized =>
             if truthy normalized then Ok (Some normalized)
             else Ok (prefix_scan _CERTAINTY_NORMALIZATION_RULES
                        (certainty_text (PyStr s)))
         | None => Ok (prefix_scan _CERTAINTY_NORMALIZATION_RULES
                         (certainty_text (PyStr s)))
         end
    else Ok None.
Proof. by rewrite normalize_returning. Qed.

(** A number makes [normalize_certainty] and [canonicalize_allergen] raise
    when its conversion raises; otherwise it has no match. *)
Lemma normalize_number z :
  normalize_certainty (PyInt z)
  = if int_str_overflows z then Raise ValueError else Ok None.
Proof.
  rewrite normalize_value by done. unfold py_str.
  destruct (int_str_overflows z); [done|].
  destruct (int_certainty_text z) as (c & r & Hct & Hlet).
  destruct (int_normal_form z) as (c' & r' & -> & _).
  change (truthy (String c' r')) with true. cbv iota.
  rewrite Hct, (unlettered_text_no_rule c r Hlet).
  rewrite prefix_scan_find. fold (first_prefix_rule (String c r)).
  by rewrite (proj2 (unlettered_text_unknown c r Hlet)).
Qed.

(** What [canonicalize_allergen] does with a [str], in one equation. *)
Lemma canonicalize_str s :
  canonicalize_allergen (PyStr s)
  = if truthy (lower (strip s)) then Ok (_ALIAS_LOOKUP !! lower (strip s))
    else Ok None.
Proof.
  unfold canonicalize_allergen, py_str, py_text, mbind, result_bind.
  by destruct (truthy _).
Qed.

Lemma canonicalize_number z :
  canonicalize_allergen (PyInt z)
  = if int_str_overflows z then Raise ValueError else Ok None.
Proof.
  unfold canonicalize_allergen, py_str, mbind, result_bind.
  destruct (int_str_overflows z); [done|].
  destruct (int_normal_form z) as (c & r & -> & _ & Hlet).
  change (truthy (String c r)) with true. cbv iota beta. simpl negb. cbv iota.
  by rewrite (proj1 (unlettered_text_unknown c r Hlet)).
Qed.

Lemma from_label_str s :
  canonical_allergen_from_label (PyStr s)
  = if truthy s then Ok (_CANONICAL_BY_LABEL !! lower (strip s)) else Ok None.
Proof. unfold canonical_allergen_from_label. simpl. by destruct (truthy s). Qed.

(** The keys of the combined index are the lower-cased labels and aliases
    of the table, and nothing else. *)
Lemma iter_all_aliases_spec k :
  k ∈ iter_all_aliases <->
  exists e, e ∈ _CANONICAL_DATA /\ k ∈ entry_keys e.
Proof.
  unfold iter_all_aliases, _ALIAS_LOOKUP. rewrite elem_of_dom. split.
  - intros [e He]. exists e. by apply alias_lookup_Some.
  - intros (e & He & Hk).
    destruct (alias_lookup _CANONICAL_DATA !! k) eqn:Hl; [done|].
    rewrite alias_lookup_None in Hl. by destruct (Hl e He).
Qed.

Lemma space_splits_complete a x y :
  a = x +:+ " " +:+ y -> In (x, y) (space_splits a).
Proof.
  revert a. induction x as [|c x IH]; intros a ->.
  - by left.
  - rewrite append_cons. simpl. apply in_or_app. right.
    apply (in_map (fun xy => (String c (fst xy), snd xy)) _ (x, y)).
    by apply IH.
Qed.

Lemma declared_text_found e A :
  e ∈ _CANONICAL_DATA -> A ∈ declared_texts e ->
  canonicalize_allergen (PyStr A) = Ok (Some e).
Proof.
  intros He HA.
  destruct (declared_text_resolves e A He HA) as (Hs & Hne & Hl).
  rewrite canonicalize_str, Hs, truthy_lower, (truthy_true _ Hne). by rewrite Hl.
Qed.

End TableFacts.

(** ** Allergen lookup *)

Section AllergenLookup.
Import PyString.

(** C1. Every label and every alias declared in the canonical table is
    resolved by [canonicalize_allergen] to the entry that declares it.  The
    combined index built from any table holds, for each key, the last entry
    of the table declaring it: when two entries declare the same lower-cased
    text, the lookup gives the one declared later. *)
Theorem canonicalize_declared_text :
  (forall e A,
      e ∈ _CANONICAL_DATA -> A ∈ declared_texts e ->
      canonicalize_allergen (PyStr A) = Ok (Some e))
  /\ (forall data k, alias_lookup data !! k = find (declares k) (rev data))
  /\ (forall pre e1 mid e2 post A1 A2,
        A1 ∈ declared_texts e1 -> A2 ∈ declared_texts e2 ->
        lower A1 = lower A2 ->
        (forall e', e' ∈ post -> lower A2 ∉ entry_keys e') ->
        alias_lookup (pre ++ e1 :: mid ++ e2 :: post) !! lower A1 = Some e2).
Proof.
  split; [|split].
  - apply declared_text_found.
  - apply alias_lookup_last.
  - intros pre e1 mid e2 post A1 A2 _ H2 -> Hpost.
    replace (pre ++ e1 :: mid ++ e2 :: post)%list
      with ((pre ++ e1 :: mid) ++ e2 :: post)%list by by rewrite <- app_assoc.
    apply alias_lookup_split; [|done].
    unfold entry_keys. by apply list_elem_of_fmap_2.
Qed.

Lemma canonicalize_declared_text_witness :
  canonicalize_allergen (PyStr "dairy") = Ok (Some milk_entry)
  /\ alias_lookup [milk_entry; soured_entry] !! "dairy" = Some soured_entry.
Proof.
  split.
  - apply (proj1 canonicalize_declared_text milk_entry "dairy").
    + apply (bool_decide_unpack _). vm_compute. exact I.
    + apply (bool_decide_unpack _). vm_compute. exact I.
  - apply (proj2 (proj2 canonicalize_declared_text)
             [] milk_entry [] soured_entry [] "dairy" "DAIRY").
    + apply (bool_decide_unpack _). vm_compute. exact I.
    + apply (bool_decide_unpack _). vm_compute. exact I.
    + reflexivity.
    + intros e' He'. by apply elem_of_nil in He'.
Defined.

(** C7. [canonicalize_allergen] gives the same result on a text and on its
    trimmed, lower-cased form; [None] and the empty text give no match. *)
Theorem canonicalize_case_trim_insensitive :
  (forall s,
      canonicalize_allergen (PyStr s)
      = canonicalize_allergen (PyStr (lower (strip s))))
  /\ canonicalize_allergen (PyStr "  WHEAT ")
     = canonicalize_allergen (PyStr "wheat")
  /\ canonicalize_allergen PyNone = Ok None
  /\ canonicalize_allergen (PyStr EmptyString) = Ok None.
Proof.
  split; [|by vm_compute].
  intros s. by rewrite !canonicalize_str, normal_form_idem.
Qed.

(** C8. A text whose trimmed, lower-cased form is not a key of the combined
    index has no match, and a match always comes from an entry of the table
    that declares exactly that form: only whole keys are looked up, so a
    text that merely contains or begins with an alias is not resolved. *)
Theorem canonicalize_exact_key_only :
  (forall s,
      lower (strip s) ∉ iter_all_aliases ->
      canonicalize_allergen (PyStr s) = Ok None)
  /\ (forall s e,
        canonicalize_allergen (PyStr s) = Ok (Some e) ->
        e ∈ _CANONICAL_DATA /\ lower (strip s) ∈ entry_keys e)
  /\ canonicalize_allergen (PyStr "Peanut butter traces") = Ok None.
Proof.
  split; [|split; [|by vm_compute]].
  - intros s Hk. rewrite canonicalize_str.
    unfold iter_all_aliases in Hk. apply not_elem_of_dom in Hk.
    rewrite Hk. by destruct (truthy _).
  - intros s e. rewrite canonicalize_str.
    destruct (truthy _); [|done].
    destruct (_ALIAS_LOOKUP !! lower (strip s)) as [e'|] eqn:Hl; [|done].
    intros [= ->]. by apply alias_lookup_Some in Hl.
Qed.

Lemma canonicalize_exact_key_only_witness :
  starts_with (lower (strip "Peanut butter traces")) "peanut"
  /\ canonicalize_allergen (PyStr "peanut") <> Ok None
  /\ canonicalize_allergen (PyStr "Peanut butter") = Ok None
  /\ lower (strip " GLUTEN ") ∈ entry_keys
       {| slug := "wheat"; label := "Wheat"; legacy_codes := [];
          aliases := ["wheat"; "gluten"; "durum wheat"; "semolina"; "farina";
                      "flour"; "bread"; "cereal"; "cereals"] |}.
Proof.
  split; [by exists " butter traces"|]. split; [by vm_compute|]. split.
  - apply (proj1 canonicalize_exact_key_only).
    unfold iter_all_aliases. apply not_elem_of_dom. vm_compute. reflexivity.
  - apply (proj1 (proj2 canonicalize_exact_key_only) " GLUTEN ").
    vm_compute. reflexivity.
Defined.

(** C9. An instance of [CanonicalAllergen] is returned as it is, so the
    function applied to one of its own matches gives that match again. *)
Theorem canonicalize_identity_on_entries :
  (forall e, canonicalize_allergen (PyCanonical e) = Ok (Some e))
  /\ (forall v e,
        canonicalize_allergen v = Ok (Some e) ->
        canonicalize_allergen (PyCanonical e) = canonicalize_allergen v).
Proof. split; [done|]. by intros v e ->. Qed.

Lemma canonicalize_identity_on_entries_witness :
  canonicalize_allergen (PyStr "Dairy") = Ok (Some milk_entry)
  /\ canonicalize_allergen (PyCanonical milk_entry)
     = canonicalize_allergen (PyStr "Dairy").
Proof.
  split; [vm_compute; reflexivity|].
  apply (proj2 canonicalize_identity_on_entries). vm_compute. reflexivity.
Defined.

(** C5. [canonical_allergen_from_label] reads the label index only: a text
    that matches an alias of an entry but the label of none has no match
    there, while [canonicalize_allergen] resolves it to the entry; a text
    that matches the label of an entry is resolved to it; an empty or
    absent label has no match. *)
Theorem from_label_ignores_aliases :
  (forall s e a,
      e ∈ _CANONICAL_DATA -> a ∈ aliases e ->
      lower (strip s) = lower a ->
      (forall e', e' ∈ _CANONICAL_DATA -> lower (label e') <> lower (strip s)) ->
      canonical_allergen_from_label (PyStr s) = Ok None
      /\ canonicalize_allergen (PyStr s) = Ok (Some e))
  /\ (forall s e,
        e ∈ _CANONICAL_DATA ->
        lower (strip s) = lower (label e) ->
        canonical_allergen_from_label (PyStr s) = Ok (Some e))
  /\ (forall e,
        e ∈ _CANONICAL_DATA ->
        canonical_allergen_from_label (PyStr (label e)) = Ok (Some e))
  /\ (canonical_allergen_from_label (PyStr "dairy") = Ok None
      /\ canonicalize_allergen (PyStr "dairy") = Ok (Some milk_entry))
  /\ canonical_allergen_from_label PyNone = Ok None
  /\ canonical_allergen_from_label (PyStr EmptyString) = Ok None.
Proof.
  assert (Hlabel : forall s e,
             e ∈ _CANONICAL_DATA -> lower (strip s) = lower (label e) ->
             canonical_allergen_from_label (PyStr s) = Ok (Some e)).
  { intros s e He Hs. destruct (label_resolves e He) as (_ & Hne & Hl).
    rewrite from_label_str, Hs, Hl.
    destruct s; [|done]. simpl in Hs. symmetry in Hs.
    by apply lower_empty in Hs. }
  split; [|split; [exact Hlabel|split; [|by vm_compute]]].
  - intros s e a He Ha Hs Hlab. split.
    + rewrite from_label_str. destruct (truthy s); [|done].
      f_equal. by apply by_label_None.
    + assert (a ∈ declared_texts e) as Hd by by apply elem_of_cons; right.
      destruct (declared_text_resolves e a He Hd) as (_ & Hne & Hl).
      rewrite canonicalize_str, Hs, truthy_lower, (truthy_true _ Hne).
      by rewrite Hl.
  - intros e He. apply Hlabel; [done|].
    by destruct (label_resolves e He) as (-> & _).
Qed.

Lemma from_label_ignores_aliases_witness :
  (canonical_allergen_from_label (PyStr " Dairy ") = Ok None
   /\ canonicalize_allergen (PyStr " Dairy ") = Ok (Some milk_entry))
  /\ canonical_allergen_from_label (PyStr " MILK") = Ok (Some milk_entry)
  /\ canonical_allergen_from_label (PyStr "Milk") = Ok (Some milk_entry).
Proof.
  assert (milk_entry ∈ _CANONICAL_DATA) as Hin.
  { apply (bool_decide_unpack _). vm_compute. exact I. }
  split; [|split].
  - apply (proj1 from_label_ignores_aliases " Dairy " milk_entry "dairy").
    + exact Hin.
    + apply (bool_decide_unpack _). vm_compute. exact I.
    + reflexivity.
    + apply Forall_forall. apply (bool_decide_unpack _). vm_compute. exact I.
  - apply (proj1 (proj2 from_label_ignores_aliases) " MILK" milk_entry).
    + exact Hin.
    + reflexivity.
  - apply (proj1 (proj2 (proj2 from_label_ignores_aliases)) milk_entry Hin).
Defined.

(** C10. [canonicalize_allergen] keeps interior white space as it is: an
    alias of the table written with two spaces in the place of one of its
    spaces has no match, whatever the case and the outer white space of the
    input, while the alias itself is resolved.  [normalize_certainty]
    collapses the run, and still recognises a rule key written that way. *)
Theorem doubled_space_alias_not_found :
  (forall e a x y,
      e ∈ _CANONICAL_DATA -> a ∈ aliases e ->
      a = x +:+ " " +:+ y ->
      canonicalize_allergen (PyStr a) = Ok (Some e)
      /\ canonicalize_allergen (PyStr (x +:+ "  " +:+ y)) = Ok None
      /\ (forall s,
            lower (strip s) = lower (x +:+ "  " +:+ y) ->
            canonicalize_allergen (PyStr s) = Ok None))
  /\ (forall k v x y,
        (k, v) ∈ _CERTAINTY_NORMALIZATION_RULES ->
        k = x +:+ " " +:+ y ->
        normalize_certainty (PyStr (x +:+ "  " +:+ y)) = Ok (Some v))
  /\ (forall x y,
        collapse_whitespace (x +:+ "  " +:+ y)
        = collapse_whitespace (x +:+ " " +:+ y)).
Proof.
  split; [|split; [|intros x y; apply collapse_from_double_space]].
  - intros e a x y He Ha Hxy.
    assert (a ∈ declared_texts e) as Hd by by apply elem_of_cons; right.
    split; [by apply declared_text_found|].
    pose proof doubled_aliases_miss_ok as H. unfold doubled_aliases_miss in H.
    rewrite forallb_forall in H.
    specialize (H e (proj1 (list_elem_of_In _ _) He)).
    rewrite forallb_forall in H.
    specialize (H a (proj1 (list_elem_of_In _ _) Ha)).
    rewrite forallb_forall in H.
    specialize (H (x, y) (space_splits_complete a x y Hxy)).
    apply andb_true_iff in H as [Hmiss Hdirect].
    apply bool_decide_eq_true in Hmiss, Hdirect.
    split; [exact Hdirect|].
    intros s Hs. rewrite canonicalize_str, Hs.
    change (x +:+ "  " +:+ y) with (doubled (x, y)).
    rewrite Hmiss. by destruct (truthy _).
  - intros k v x y Hkv Hxy.
    pose proof doubled_rules_hit_ok as H. unfold doubled_rules_hit in H.
    rewrite forallb_forall in H.
    specialize (H (k, v) (proj1 (list_elem_of_In _ _) Hkv)).
    rewrite forallb_forall in H.
    specialize (H (x, y) (space_splits_complete k x y Hxy)).
    by apply bool_decide_eq_true in H.
Qed.

Lemma doubled_space_alias_not_found_witness :
  (canonicalize_allergen (PyStr "rolled  oats") = Ok None
   /\ canonicalize_allergen (PyStr " Rolled  Oats ") = Ok None)
  /\ normalize_certainty (PyStr "most  likely") = Ok (Some "likely").
Proof.
  assert (oats_entry ∈ _CANONICAL_DATA) as Hin.
  { apply (bool_decide_unpack _). vm_compute. exact I. }
  assert ("rolled oats" ∈ aliases oats_entry) as Hal.
  { apply (bool_decide_unpack _). vm_compute. exact I. }
  destruct (proj1 doubled_space_alias_not_found oats_entry "rolled oats"
              "rolled" "oats" Hin Hal eq_refl) as (_ & Hmiss & Hall).
  split; [split|].
  - exact Hmiss.
  - apply Hall. reflexivity.
  - apply (proj1 (proj2 doubled_space_alias_not_found) "most likely" "likely"
             "most" "likely"); [|reflexivity].
    apply (bool_decide_unpack _). vm_compute. exact I.
Defined.

End AllergenLookup.

(** ** Certainty normalization *)

Section Certainty.
Import PyString.
Implicit Types (items : list (string * string)) (text : string).

Lemma odict_get_Some items key v :
  odict_get items key = Some v -> (key, v) ∈ items.
Proof.
  induction items as [|[k w] items IH]; simpl; [done|].
  destruct (String.eqb_spec k key) as [->|Hne].
  - intros [= ->]. by left.
  - intros H. right. by apply IH.
Qed.

Lemma prefix_scan_Some items text v :
  prefix_scan items text = Some v -> exists k, (k, v) ∈ items.
Proof.
  induction items as [|[k w] items IH]; simpl; [done|].
  destruct (startswith text k).
  - intros [= ->]. exists k. by left.
  - intros [k' Hk']%IH. exists k'. by right.
Qed.

(** The scan stops at the first key that is a prefix of the text. *)
Lemma find_first_prefix items text pre k v post :
  items = (pre ++ (k, v) :: post)%list ->
  starts_with text k ->
  (forall k' v', (k', v') ∈ pre -> ~ starts_with text k') ->
  find (fun kv => startswith text (fst kv)) items = Some (k, v).
Proof.
  intros -> Hk Hpre. rewrite find_app.
  assert (find (fun kv => startswith text (fst kv)) pre = None) as ->.
  { apply find_none_Forall, Forall_forall. intros [k' v'] Hin. simpl.
    apply startswith_false. by eapply Hpre. }
  simpl. apply startswith_spec in Hk. by rewrite Hk.
Qed.

Lemma find_no_prefix items text :
  (forall k v, (k, v) ∈ items -> ~ starts_with text k) ->
  find (fun kv => startswith text (fst kv)) items = None.
Proof.
  intros H. apply find_none_Forall, Forall_forall. intros [k v] Hin. simpl.
  apply startswith_false. by eapply H.
Qed.

Lemma rule_in_table k v :
  (k, v) ∈ _CERTAINTY_NORMALIZATION_RULES ->
  k <> EmptyString /\ truthy v = true /\ v ∈ certainty_values
  /\ (starts_with k "high" -> v = "likely").
Proof.
  intros Hin%list_elem_of_In.
  pose proof rule_keys_ok_ok as Hk. pose proof rule_values_ok_ok as Hv.
  pose proof high_rules_likely_ok as Hh.
  unfold rule_keys_ok in Hk. unfold rule_values_ok in Hv.
  unfold high_rules_likely in Hh.
  rewrite forallb_forall in Hk, Hv, Hh.
  specialize (Hk _ Hin). specialize (Hv _ Hin). specialize (Hh _ Hin).
  simpl in Hk, Hv, Hh. apply andb_true_iff in Hv as [Hv1 Hv2].
  apply bool_decide_eq_true in Hv2.
  split; [by intros ->|]. split; [done|]. split; [done|].
  intros Hs%startswith_spec. rewrite Hs in Hh. simpl in Hh.
  by apply bool_decide_eq_true in Hh.
Qed.

(** With no exact match, the result is the value of the first prefix rule. *)
Lemma normalize_without_exact_match s :
  odict_get _CERTAINTY_NORMALIZATION_RULES (certainty_text (PyStr s)) = None ->
  normalize_certainty (PyStr s)
  = Ok (snd <$> first_prefix_rule (certainty_text (PyStr s))).
Proof.
  intros Hnone. rewrite normalize_text, Hnone.
  unfold first_prefix_rule. rewrite <- prefix_scan_find.
  destruct (truthy (lower (strip s))) eqn:Ht; [done|].
  unfold certainty_text, py_text. destruct (lower (strip s)); [|done].
  by vm_compute.
Qed.

Lemma first_prefix_rule_high text :
  starts_with text "high" ->
  first_prefix_rule text = Some ("high", "likely").
Proof.
  intros [rest ->]. unfold first_prefix_rule, startswith.
  by destruct rest.
Qed.

Lemma high_input_high_text rest :
  starts_with (certainty_text (PyStr ("high" +:+ rest))) "high".
Proof.
  unfold certainty_text, strip, py_text.
  change ("high" +:+ rest)
    with (String "h" (String "i" (String "g" (String "h" rest)))).
  simpl lstrip. rewrite !rstrip_cons_visible by reflexivity.
  by eexists.
Qed.

(** C2. When the normalized text is not a key of the rule table,
    [normalize_certainty] gives the value of the first rule, in the order
    of the table, whose key is a prefix of that text, and no match when no
    key is a prefix.  "highish" is normalized to "likely" through the key
    "high", which is the first prefix rule of every text beginning with
    "high". *)
Theorem normalize_certainty_prefix_fallback :
  (forall s pre k v post,
      odict_get _CERTAINTY_NORMALIZATION_RULES (certainty_text (PyStr s)) = None ->
      _CERTAINTY_NORMALIZATION_RULES = (pre ++ (k, v) :: post)%list ->
      starts_with (certainty_text (PyStr s)) k ->
      (forall k' v', (k', v') ∈ pre -> ~ starts_with (certainty_text (PyStr s)) k') ->
      normalize_certainty (PyStr s) = Ok (Some v))
  /\ (forall s,
        odict_get _CERTAINTY_NORMALIZATION_RULES (certainty_text (PyStr s)) = None ->
        (forall k v, (k, v) ∈ _CERTAINTY_NORMALIZATION_RULES ->
                     ~ starts_with (certainty_text (PyStr s)) k) ->
        normalize_certainty (PyStr s) = Ok None)
  /\ (normalize_certainty (PyStr "highish") = Ok (Some "likely")
      /\ odict_get _CERTAINTY_NORMALIZATION_RULES "highish" = None
      /\ first_prefix_rule "highish" = Some ("high", "likely"))
  /\ (forall s,
        starts_with s "high" \/ starts_with (certainty_text (PyStr s)) "high" ->
        first_prefix_rule (certainty_text (PyStr s)) = Some ("high", "likely")
        /\ normalize_certainty (PyStr s) = Ok (Some "likely")).
Proof.
  split; [|split; [|split; [by vm_compute|]]].
  - intros s pre k v post Hnone Hsplit Hk Hpre.
    rewrite normalize_without_exact_match by done. unfold first_prefix_rule.
    by rewrite (find_first_prefix _ _ pre k v post Hsplit Hk Hpre).
  - intros s Hnone Hno.
    rewrite normalize_without_exact_match by done. unfold first_prefix_rule.
    by rewrite find_no_prefix.
  - intros s Hs.
    assert (Hhigh : starts_with (certainty_text (PyStr s)) "high").
    { destruct Hs as [[rest ->]|Hs]; [apply high_input_high_text|done]. }
    clear Hs. split; [by apply first_prefix_rule_high|].
    destruct (odict_get _CERTAINTY_NORMALIZATION_RULES (certainty_text (PyStr s)))
      as [r|] eqn:Hget.
    + rewrite normalize_text, Hget.
      apply odict_get_Some, rule_in_table in Hget as (Hne & Ht & _ & Hl).
      rewrite Ht, (Hl Hhigh).
      destruct (truthy (lower (strip s))) eqn:Hs; [done|].
      exfalso. apply Hne. unfold certainty_text, py_text.
      by destruct (lower (strip s)).
    + rewrite normalize_without_exact_match by done.
      by rewrite first_prefix_rule_high.
Qed.

Lemma normalize_certainty_prefix_fallback_witness :
  normalize_certainty (PyStr "  High   Risk") = Ok (Some "likely")
  /\ (first_prefix_rule (certainty_text (PyStr "high confidence please"))
      = Some ("high", "likely")
      /\ normalize_certainty (PyStr "high confidence please")
         = Ok (Some "likely"))
  /\ normalize_certainty (PyStr "bogus") = Ok None.
Proof.
  split; [|split].
  - apply (proj1 normalize_certainty_prefix_fallback "  High   Risk"
             (firstn 12 _CERTAINTY_NORMALIZATION_RULES) "high" "likely"
             (skipn 13 _CERTAINTY_NORMALIZATION_RULES)).
    + vm_compute. reflexivity.
    + reflexivity.
    + by exists " risk".
    + intros k' v' Hin. apply startswith_false.
      revert k' v' Hin.
      assert (Forall (fun kv => startswith "high risk" (fst kv) = false)
                (firstn 12 _CERTAINTY_NORMALIZATION_RULES)) as Hall.
      { apply (bool_decide_unpack _). vm_compute. exact I. }
      intros k' v' Hin. rewrite Forall_forall in Hall. apply (Hall (k', v') Hin).
  - apply (proj2 (proj2 (proj2 normalize_certainty_prefix_fallback))
             "high confidence please").
    left. by exists " confidence please".
  - apply (proj1 (proj2 normalize_certainty_prefix_fallback) "bogus").
    + vm_compute. reflexivity.
    + intros k v Hin. apply startswith_false.
      assert (Forall (fun kv => startswith "bogus" (fst kv) = false)
                _CERTAINTY_NORMALIZATION_RULES) as Hall.
      { apply (bool_decide_unpack _). vm_compute. exact I. }
      rewrite Forall_forall in Hall. apply (Hall (k, v) Hin).
Defined.

(** C4. [normalize_certainty] has no match for [None] and for an input
    whose trimmed text is empty.  Otherwise the text of the input is
    trimmed, lower-cased and every run of white space in it is turned into
    one space; when that text is a key of the rule table the result is the
    value of that key.  A match is always "certain" or "likely". *)
Theorem normalize_certainty_contract :
  normalize_certainty PyNone = Ok None
  /\ normalize_certainty (PyStr "   ") = Ok None
  /\ (forall v, strip (py_text v) = EmptyString -> normalize_certainty v = Ok None)
  /\ (forall v r,
        v <> PyNone -> strip (py_text v) <> EmptyString ->
        odict_get _CERTAINTY_NORMALIZATION_RULES (certainty_text v) = Some r ->
        normalize_certainty v = Ok (Some r))
  /\ (forall s,
        no_adjacent_spaces (collapse_whitespace s) = true
        /\ only_plain_spaces (collapse_whitespace s) = true
        /\ visible (collapse_whitespace s) = visible s
        /\ (visible s = s -> collapse_whitespace s = s))
  /\ (forall v r,
        normalize_certainty v = Ok (Some r) -> r = "certain" \/ r = "likely").
Proof.
  split; [done|]. split; [by vm_compute|]. split; [|split; [|split]].
  - intros v Hempty.
    destruct (decide (v = PyNone)) as [->|Hv]; [done|].
    destruct (py_str_cases v) as [Hstr|(z & -> & _ & _)].
    + by rewrite (normalize_returning v Hv Hstr), Hempty.
    + destruct (int_normal_form z) as (c & r & Hnf & _).
      rewrite Hempty in Hnf. discriminate Hnf.
  - intros v r Hv Hne Hget.
    destruct (py_str_cases v) as [Hstr|(z & -> & _ & _)].
    + rewrite (normalize_returning v Hv Hstr), Hget.
      apply odict_get_Some, rule_in_table in Hget as (_ & Ht & _).
      rewrite Ht, truthy_lower, truthy_true; done.
    + destruct (int_certainty_text z) as (c & t & Hct & Hlet).
      rewrite Hct, (unlettered_text_no_rule c t Hlet) in Hget.
      discriminate Hget.
  - intros s. split; [|split; [|split]].
    + apply collapse_from_no_adjacent.
    + apply collapse_from_plain.
    + apply collapse_from_visible.
    + apply collapse_no_space.
  - intros v r Hr.
    assert (exists k, (k, r) ∈ _CERTAINTY_NORMALIZATION_RULES) as [k Hk].
    { destruct (decide (v = PyNone)) as [->|Hv]; [done|].
      rewrite (normalize_value v Hv) in Hr.
      destruct (py_str v); [|done].
      destruct (truthy (lower _)); [|done].
      destruct (odict_get _ _) as [w|] eqn:Hget.
      - destruct (truthy w).
        + injection Hr as ->. eexists. by apply odict_get_Some in Hget.
        + remember (prefix_scan _ _) as found eqn:Hscan.
          injection Hr as ->. symmetry in Hscan.
          by apply prefix_scan_Some in Hscan.
      - remember (prefix_scan _ _) as found eqn:Hscan.
        injection Hr as ->. symmetry in Hscan.
        by apply prefix_scan_Some in Hscan. }
    apply rule_in_table in Hk as (_ & _ & Hin & _).
    unfold certainty_values in Hin.
    apply elem_of_cons in Hin as [->|Hin]; [by left|].
    apply elem_of_cons in Hin as [->|Hin]; [by right|].
    by apply elem_of_nil in Hin.
Qed.

Lemma normalize_certainty_contract_witness :
  normalize_certainty (PyStr " Very   HIGH ") = Ok (Some "likely")
  /\ normalize_certainty (PyStr "definitely") <> Ok (Some "confirmed")
  /\ normalize_certainty (PyStr (String (ascii_of_N 9) " ")) = Ok None.
Proof.
  destruct normalize_certainty_contract as (_ & _ & Hempty & Hexact & _ & Hval).
  split; [|split].
  - apply Hexact.
    + discriminate.
    + vm_compute. discriminate.
    + vm_compute. reflexivity.
  - intros H. destruct (Hval _ _ H) as [H'|H']; discriminate H'.
  - apply Hempty. vm_compute. reflexivity.
Defined.

(** C6. [certainty_to_ui] gives one of "likely", "certain", "confirmed" for
    every input that is [None], a text, or any other value but a non-empty
    list: "likely" for [None], each of the three values for itself, and
    "likely" for whatever the map does not hold. *)
Theorem certainty_to_ui_total :
  (forall v,
      (forall x l, v <> PyList (x :: l)) ->
      exists u, certainty_to_ui v = Ok u /\ u ∈ ui_values)
  /\ certainty_to_ui PyNone = Ok "likely"
  /\ (forall u, u ∈ ui_values -> certainty_to_ui (PyStr u) = Ok u)
  /\ (forall v,
        dict_get _UI_CERTAINTY_MAP v = Ok None -> certainty_to_ui v = Ok "likely")
  /\ certainty_to_ui (PyStr "bogus") = Ok "likely".
Proof.
  assert (Hmap : forall s u, _UI_CERTAINTY_MAP !! s = Some u -> u = s /\ u ∈ ui_values).
  { intros s u. unfold _UI_CERTAINTY_MAP, ui_values.
    rewrite !lookup_insert, lookup_empty.
    repeat case_decide; intros [= <-]; subst; split; try done;
      apply (bool_decide_unpack _); by vm_compute. }
  assert (Hlikely : "likely" ∈ ui_values) by by left.
  split; [|split; [done|split; [|split; [|by vm_compute]]]].
  - intros v Hv. unfold certainty_to_ui.
    destruct (py_truthy v) eqn:Htruthy; simpl; [|by exists "likely"].
    destruct v as [|s|z|b|e|l]; unfold dict_get, mbind, result_bind;
      try by exists "likely".
    + destruct (_UI_CERTAINTY_MAP !! s) as [mapped|] eqn:Hget;
        [|by exists "likely"].
      destruct (truthy mapped); [|by exists "likely"].
      exists mapped. split; [done|]. by apply Hmap in Hget as [_ ?].
    + destruct l as [|x l]; [discriminate Htruthy|].
      by destruct (Hv x l).
  - intros u Hu. unfold ui_values in Hu.
    repeat (apply elem_of_cons in Hu as [->|Hu]; [by vm_compute|]).
    by apply elem_of_nil in Hu.
  - intros v Hnone. unfold certainty_to_ui. rewrite Hnone.
    by destruct (py_truthy v).
Qed.

Lemma certainty_to_ui_total_witness :
  certainty_to_ui (PyStr "confirmed") = Ok "confirmed"
  /\ certainty_to_ui (PyStr "Certain") = Ok "likely"
  /\ certainty_to_ui (PyInt 3) = Ok "likely".
Proof.
  destruct certainty_to_ui_total as (_ & _ & Hpass & Hdefault & _).
  split; [|split].
  - apply Hpass. apply (bool_decide_unpack _). vm_compute. exact I.
  - apply Hdefault. vm_compute. reflexivity.
  - apply Hdefault. reflexivity.
Defined.

End Certainty.

(** ** Faults *)

Section Faults.

(** C3, counterexample. The label lookup calls a [str] method on its
    argument: on the number 5 it raises, it does not return. *)
Lemma from_label_raises_on_number :
  canonical_allergen_from_label (PyInt 5) = Raise (AttributeError "strip")
  /\ ~ (forall v, returns (canonical_allergen_from_label v)).
Proof.
  split; [reflexivity|]. intros H. by destruct (H (PyInt 5)) as [a Ha].
Qed.

(** C3, as amended. Over their declared domain, [None] or a text, the four
    functions return a result.  Beyond it, [canonicalize_allergen] and
    [normalize_certainty] return a result unless the conversion of the
    value to text raises, which a number with more digits than the
    interpreter's limit does: they raise [ValueError] then.
    [certainty_to_ui] returns a result unless the value is a non-empty
    list, which cannot be hashed: it raises [TypeError] then.
    [canonical_allergen_from_label] returns exactly when its argument is a
    text or is false in a test ([None], 0, [False], the empty list); on
    any other value it raises [AttributeError]. *)
Theorem public_functions_totality :
  (forall v,
      v = PyNone \/ (exists s, v = PyStr s) ->
      returns (canonicalize_allergen v) /\ returns (normalize_certainty v)
      /\ returns (certainty_to_ui v)
      /\ returns (canonical_allergen_from_label v))
  /\ (forall v,
        (forall z, v = PyInt z -> int_str_overflows z = false) ->
        returns (canonicalize_allergen v) /\ returns (normalize_certainty v))
  /\ (forall z,
        int_str_overflows z = true ->
        canonicalize_allergen (PyInt z) = Raise ValueError
        /\ normalize_certainty (PyInt z) = Raise ValueError)
  /\ (forall v,
        (forall x l, v <> PyList (x :: l)) -> returns (certainty_to_ui v))
  /\ (forall x l, certainty_to_ui (PyList (x :: l)) = Raise TypeError)
  /\ (forall v,
        returns (canonical_allergen_from_label v) <->
        py_truthy v = false \/ exists s, v = PyStr s)
  /\ (forall v,
        canonical_allergen_from_label v = Raise (AttributeError "strip") <->
        py_truthy v = true /\ forall s, v <> PyStr s).
Proof.
  assert (Hstr : forall v,
             (forall z, v = PyInt z -> int_str_overflows z = false) ->
             returns (canonicalize_allergen v)
             /\ returns (normalize_certainty v)).
  { intros v Hv. split.
    - destruct v as [|s|z|b|e|l]; try by eexists.
      + rewrite canonicalize_str. destruct (PyString.truthy _); by eexists.
      + rewrite canonicalize_number, (Hv z eq_refl). by eexists.
      + unfold canonicalize_allergen, py_str, mbind, result_bind.
        destruct (negb _); by eexists.
      + unfold canonicalize_allergen, py_str, mbind, result_bind.
        destruct (negb _); by eexists.
    - destruct (decide (v = PyNone)) as [->|Hnone]; [by eexists|].
      assert (py_str v = Ok (py_text v)) as Hok.
      { destruct (py_str_cases v) as [?|(z & -> & Hz & _)]; [done|].
        by rewrite (Hv z eq_refl) in Hz. }
      rewrite (normalize_returning v Hnone Hok).
      destruct (PyString.truthy _); [|by eexists].
      destruct (odict_get _ _) as [w|]; [destruct (PyString.truthy w)|];
        by eexists. }
  assert (Hui : forall v,
             (forall x l, v <> PyList (x :: l)) -> returns (certainty_to_ui v)).
  { intros v Hv. unfold returns, certainty_to_ui.
    destruct (py_truthy v) eqn:Htruthy; simpl; [|by eexists].
    destruct v as [|s|z|b|e|l]; unfold dict_get, mbind, result_bind;
      try by eexists.
    - destruct (_UI_CERTAINTY_MAP !! s) as [w|];
        [destruct (PyString.truthy w)|]; by eexists.
    - destruct l as [|x l]; [discriminate Htruthy|]. by destruct (Hv x l). }
  assert (Hlabel : forall v,
             returns (canonical_allergen_from_label v) <->
             py_truthy v = false \/ exists s, v = PyStr s).
  { intros v. unfold returns, canonical_allergen_from_label. split.
    - intros [a Ha]. destruct (py_truthy v) eqn:Htruthy; [|by left].
      right. destruct v as [|s|z|b|e|l]; simpl in Ha; try discriminate Ha.
      by exists s.
    - intros [Hf|[s ->]].
      + rewrite Hf. by eexists.
      + simpl. destruct (negb _); by eexists. }
  split; [|split; [exact Hstr|split; [|split; [exact Hui|split;
    [|split; [exact Hlabel|]]]]]].
  - intros v Hv.
    destruct (Hstr v) as [Hc Hn].
    { intros z ->. by destruct Hv as [?|[s ?]]. }
    split; [done|]. split; [done|]. split.
    + apply Hui. intros x l ->. by destruct Hv as [?|[s ?]].
    + apply Hlabel. destruct Hv as [->|[s ->]]; [by left|right; by exists s].
  - intros z Hz. by rewrite canonicalize_number, normalize_number, Hz.
  - intros x l. reflexivity.
  - intros v. unfold canonical_allergen_from_label. split.
    + intros Hr. destruct (py_truthy v) eqn:Htruthy; [|discriminate Hr].
      split; [done|]. intros s ->. simpl in Hr. discriminate Hr.
    + intros [Ht Hs]. rewrite Ht. simpl.
      destruct v as [|s|z|b|e|l]; try reflexivity. by destruct (Hs s).
Qed.

Lemma public_functions_totality_witness :
  returns (canonical_allergen_from_label (PyInt 0))
  /\ canonical_allergen_from_label (PyBool true) = Raise (AttributeError "strip")
  /\ returns (canonicalize_allergen (PyInt (10 ^ 4300 - 1)))
  /\ canonicalize_allergen (PyInt (10 ^ 4300)) = Raise ValueError
  /\ returns (certainty_to_ui (PyList []))
  /\ returns (normalize_certainty (PyStr "unknown")).
Proof.
  destruct public_functions_totality
    as (Hdom & Hconv & Hover & Hui & _ & Hret & Hraise).
  split; [|split; [|split; [|split; [|split]]]].
  - apply Hret. left. reflexivity.
  - apply Hraise. split; [reflexivity|]. intros s H. discriminate H.
  - apply Hconv. intros z [= <-]. vm_compute. reflexivity.
  - apply Hover. vm_compute. reflexivity.
  - apply Hui. intros x l H. discriminate H.
  - apply (Hdom (PyStr "unknown")). right. by exists "unknown".
Defined.

End Faults.

(** ** More on strings *)

Section MoreStringFacts.
Import PyString.

Lemma collapse_from_lower b s :
  collapse_from b (lower s) = lower (collapse_from b s).
Proof.
  revert b. induction s as [|c r IH]; intros b; simpl; [done|].
  rewrite isspace_lower_char.
  destruct (isspace c); [destruct b|]; simpl; by rewrite IH.
Qed.

Lemma collapse_from_head b s :
  head_visible s -> collapse_from b s = collapse_from false s.
Proof. destruct s as [|c r]; simpl; [done|]. by intros ->. Qed.

Lemma collapse_from_true_head s : head_visible (collapse_from true s).
Proof.
  induction s as [|c r IH]; simpl; [done|].
  destruct (isspace c) eqn:Hc; [done|]. by simpl.
Qed.

Lemma collapse_from_idem b s :
  collapse_from false (collapse_from b s) = collapse_from b s.
Proof.
  revert b. induction s as [|c r IH]; intros b; simpl; [done|].
  destruct (isspace c) eqn:Hc.
  - destruct b; [apply IH|].
    change (String " " (collapse_from true (collapse_from true r))
            = String " " (collapse_from true r)).
    by rewrite (collapse_from_head true _ (collapse_from_true_head r)), IH.
  - simpl. by rewrite Hc, IH.
Qed.

Lemma visible_empty_rstrip s : visible s = EmptyString -> rstrip s = EmptyString.
Proof.
  induction s as [|c r IH]; simpl; [done|].
  destruct (isspace c); [|done]. intros Hv. by rewrite (IH Hv).
Qed.

Lemma visible_rstrip s : visible (rstrip s) = visible s.
Proof.
  induction s as [|c r IH]; simpl; [done|].
  destruct (rstrip r) as [|d r'] eqn:Hr.
  - simpl in IH. destruct (isspace c) eqn:Hc; simpl; by rewrite ?Hc, <- IH.
  - change (visible (String c (String d r'))
            = (if isspace c then visible r else String c (visible r))).
    rewrite <- IH. simpl. by destruct (isspace c).
Qed.

Lemma collapse_from_nonempty b s :
  visible s <> EmptyString -> collapse_from b s <> EmptyString.
Proof.
  intros Hv Hc. apply Hv. by rewrite <- (collapse_from_visible b), Hc.
Qed.

Lemma collapse_from_space b c r :
  isspace c = true ->
  collapse_from b (String c r)
  = if b then collapse_from true r else String " " (collapse_from true r).
Proof. intros Hc. simpl. by rewrite Hc. Qed.

(** Trimming on the right and collapsing commute. *)
Lemma rstrip_collapse_from b s :
  rstrip (collapse_from b s) = collapse_from b (rstrip s).
Proof.
  revert b. induction s as [|c r IH]; intros b; [done|].
  destruct (isspace c) eqn:Hc.
  - rewrite (collapse_from_space _ _ _ Hc).
    simpl rstrip at 2. rewrite Hc.
    destruct (rstrip r) as [|d r'] eqn:Hr.
    + destruct b; [by rewrite IH|]. simpl. by rewrite IH.
    + assert (collapse_from true (String d r') <> EmptyString) as Hne.
      { apply collapse_from_nonempty. rewrite <- Hr, visible_rstrip.
        intros Hv. apply visible_empty_rstrip in Hv. congruence. }
      rewrite (collapse_from_space _ _ _ Hc).
      destruct b; [apply IH|].
      simpl rstrip. rewrite IH.
      by destruct (collapse_from true (String d r')).
  - rewrite (rstrip_cons_visible _ _ Hc). simpl. rewrite Hc.
    by rewrite (rstrip_cons_visible _ _ Hc), IH.
Qed.

Lemma stripped_parts x : strip x = x -> head_visible x /\ rstrip x = x.
Proof.
  unfold strip. intros Hx.
  destruct (lstrip_head x) as [He|(c & r & He & Hc)]; rewrite He in Hx.
  - by rewrite <- Hx.
  - rewrite (rstrip_cons_visible _ _ Hc) in Hx.
    assert (head_visible x) as Hh by by rewrite <- Hx.
    split; [done|]. destruct x as [|d x']; [done|].
    simpl in Hh. simpl in He. rewrite Hh in He.
    injection He as -> ->. injection Hx as Hx.
    rewrite (rstrip_cons_visible _ _ Hc). by rewrite Hx.
Qed.

Lemma strip_collapse x :
  strip x = x -> strip (collapse_whitespace x) = collapse_whitespace x.
Proof.
  intros [Hh Hr]%stripped_parts. unfold strip, collapse_whitespace.
  assert (lstrip (collapse_from false x) = collapse_from false x) as ->.
  { destruct x as [|c r]; [done|]. simpl in Hh. simpl. rewrite Hh. simpl.
    by rewrite Hh. }
  by rewrite rstrip_collapse_from, Hr.
Qed.

Lemma truthy_collapse x : truthy (collapse_whitespace x) = truthy x.
Proof.
  destruct x as [|c r]; [done|]. unfold collapse_whitespace. simpl.
  by destruct (isspace c).
Qed.

Lemma strip_normal_form s : strip (lower (strip s)) = lower (strip s).
Proof. by rewrite <- lower_strip, strip_idem. Qed.

(** Normalizing a normalized certainty text changes nothing. *)
Lemma certainty_text_idem v :
  certainty_text (PyStr (certainty_text v)) = certainty_text v.
Proof.
  unfold certainty_text. simpl py_text.
  set (x := lower (strip (py_text v))).
  assert (strip x = x) as Hx by apply strip_normal_form.
  assert (lower x = x) as Hl by apply lower_idem.
  rewrite (strip_collapse x Hx). unfold collapse_whitespace.
  by rewrite <- collapse_from_lower, Hl, collapse_from_idem.
Qed.

Lemma truthy_certainty_text v :
  truthy (lower (strip (py_text v))) = truthy (certainty_text v).
Proof. unfold certainty_text. by rewrite truthy_collapse. Qed.

End MoreStringFacts.

(** ** More on the indexes *)

Section MoreIndexFacts.
Import PyString.
Implicit Types (m : gmap string CanonicalAllergen) (e : CanonicalAllergen).
Implicit Types (data : list CanonicalAllergen) (k : string).

Lemma slugs_resolve_ok : slugs_resolve = true.
Proof. vm_compute. reflexivity. Qed.

Lemma slugs_as_text_ok : slugs_as_text = true.
Proof. vm_compute. reflexivity. Qed.

Lemma by_slug_fold data m k :
  foldl (fun m item => <[slug item := item]> m) m data !! k
  = match find (has_slug k) (rev data) with
    | Some e => Some e
    | None => m !! k
    end.
Proof.
  revert m. induction data as [|e data IH]; intros m; simpl; [done|].
  rewrite IH, find_app. destruct (find (has_slug k) (rev data)); [done|].
  simpl. unfold has_slug. case_bool_decide as Hk.
  - subst k. by rewrite lookup_insert_eq.
  - by rewrite lookup_insert_ne.
Qed.

Lemma by_slug_last data k :
  by_slug data !! k = find (has_slug k) (rev data).
Proof.
  unfold by_slug. rewrite by_slug_fold, lookup_empty. by destruct (find _ _).
Qed.

Lemma by_slug_Some data k e :
  by_slug data !! k = Some e -> e ∈ data /\ slug e = k.
Proof.
  rewrite by_slug_last. intros [Hin Hs]%find_some.
  apply in_rev, list_elem_of_In in Hin. split; [done|].
  unfold has_slug in Hs. by apply bool_decide_eq_true in Hs.
Qed.

Lemma by_label_Some data k e :
  by_label data !! k = Some e -> e ∈ data /\ lower (label e) = k.
Proof.
  rewrite by_label_last. intros [Hin Hs]%find_some.
  apply in_rev, list_elem_of_In in Hin. split; [done|].
  unfold has_label in Hs. by apply bool_decide_eq_true in Hs.
Qed.

Lemma slug_resolves e :
  e ∈ _CANONICAL_DATA -> CANONICAL_ALLERGENS !! slug e = Some e.
Proof.
  intros He. pose proof slugs_resolve_ok as H.
  unfold slugs_resolve in H. rewrite forallb_forall in H.
  specialize (H e (proj1 (list_elem_of_In _ _) He)).
  by apply bool_decide_eq_true in H.
Qed.

Lemma entry_key_inv e k :
  k ∈ entry_keys e -> exists a, a ∈ declared_texts e /\ k = lower a.
Proof.
  unfold entry_keys. intros (a & -> & Ha)%list_elem_of_fmap. by exists a.
Qed.

(** X1. The slug index gives every entry of the table back under its own
    slug, holds nothing else, and has as many keys as the table has
    entries; built from any table, it keeps for a slug the last entry that
    carries it. *)
Theorem canonical_allergens_by_slug :
  (forall e, e ∈ _CANONICAL_DATA -> CANONICAL_ALLERGENS !! slug e = Some e)
  /\ (forall k e,
        CANONICAL_ALLERGENS !! k = Some e -> e ∈ _CANONICAL_DATA /\ slug e = k)
  /\ size CANONICAL_ALLERGENS = length _CANONICAL_DATA
  /\ (forall data k, by_slug data !! k = find (has_slug k) (rev data)).
Proof.
  split; [exact slug_resolves|]. split; [|split].
  - intros k e. apply by_slug_Some.
  - vm_compute. reflexivity.
  - apply by_slug_last.
Qed.

Lemma canonical_allergens_by_slug_witness :
  CANONICAL_ALLERGENS !! "milk" = Some milk_entry
  /\ slug oats_entry = "oats".
Proof.
  split.
  - apply (proj1 canonical_allergens_by_slug milk_entry).
    apply (bool_decide_unpack _). vm_compute. exact I.
  - apply (proj1 (proj2 canonical_allergens_by_slug) "oats" oats_entry).
    vm_compute. reflexivity.
Defined.

(** X15. The label index gives every entry of the table back under its
    lower-cased label, holds nothing else, and has as many keys as the
    table has entries; built from any table, it keeps for a lower-cased
    label the last entry that carries it. *)
Theorem label_index_keys_and_values :
  (forall e,
      e ∈ _CANONICAL_DATA -> _CANONICAL_BY_LABEL !! lower (label e) = Some e)
  /\ (forall k e,
        _CANONICAL_BY_LABEL !! k = Some e ->
        e ∈ _CANONICAL_DATA /\ lower (label e) = k)
  /\ size _CANONICAL_BY_LABEL = length _CANONICAL_DATA
  /\ (forall data k, by_label data !! k = find (has_label k) (rev data)).
Proof.
  split; [|split; [|split]].
  - intros e He. by destruct (label_resolves e He) as (_ & _ & ?).
  - intros k e. apply by_label_Some.
  - vm_compute. reflexivity.
  - apply by_label_last.
Qed.

Lemma label_index_keys_and_values_witness :
  _CANONICAL_BY_LABEL !! "milk" = Some milk_entry
  /\ lower (label oats_entry) = "oats".
Proof.
  split.
  - apply (proj1 label_index_keys_and_values milk_entry).
    apply (bool_decide_unpack _). vm_compute. exact I.
  - apply (proj1 (proj2 label_index_keys_and_values) "oats" oats_entry).
    vm_compute. reflexivity.
Defined.

(** X2. For any table, the keys of the combined index are exactly the
    lower-cased labels and aliases of its entries; the value under a key is
    an entry of the table declaring that key; a key is its own lower-cased
    form; and adding an entry at the end rewrites the keys it declares and
    leaves the others as they were. *)
Theorem alias_lookup_keys_and_values :
  (forall data k,
      k ∈ dom (alias_lookup data) <-> exists e, e ∈ data /\ k ∈ entry_keys e)
  /\ (forall data k e,
        alias_lookup data !! k = Some e ->
        e ∈ data /\ k ∈ entry_keys e /\ lower k = k)
  /\ (forall data e k,
        alias_lookup (data ++ [e]) !! k
        = if declares k e then Some e else alias_lookup data !! k).
Proof.
  split; [|split].
  - intros data k. rewrite elem_of_dom. split.
    + intros [e He]. exists e. by apply alias_lookup_Some.
    + intros (e & He & Hk).
      destruct (alias_lookup data !! k) eqn:Hl; [done|].
      rewrite alias_lookup_None in Hl. by destruct (Hl e He).
  - intros data k e [He Hk]%alias_lookup_Some. split; [done|]. split; [done|].
    apply entry_key_inv in Hk as (a & _ & ->). apply lower_idem.
  - intros data e k. rewrite !alias_lookup_last, rev_app_distr. simpl.
    by destruct (declares k e).
Qed.

Lemma alias_lookup_keys_and_values_witness :
  "dairy" ∈ dom (alias_lookup [milk_entry; soured_entry])
  /\ lower "soured milk" = "soured milk".
Proof.
  split.
  - apply (proj1 alias_lookup_keys_and_values). exists milk_entry. split.
    + apply (bool_decide_unpack _). vm_compute. exact I.
    + apply (bool_decide_unpack _). vm_compute. exact I.
  - apply (proj1 (proj2 alias_lookup_keys_and_values)
             [milk_entry; soured_entry] "soured milk" soured_entry).
    vm_compute. reflexivity.
Defined.

Lemma known_alias_resolves k :
  k ∈ iter_all_aliases ->
  lower k = k /\ strip k = k /\ k <> EmptyString
  /\ exists e, e ∈ _CANONICAL_DATA /\ k ∈ entry_keys e
               /\ _ALIAS_LOOKUP !! k = Some e.
Proof.
  intros (e & He & Hk)%iter_all_aliases_spec.
  pose proof Hk as (a & Ha & ->)%entry_key_inv.
  destruct (declared_text_resolves e a He Ha) as (Hs & Hne & Hl).
  split; [apply lower_idem|]. split; [by rewrite <- lower_strip, Hs|].
  split.
  - intros Hempty. apply Hne. exact (lower_empty _ Hempty).
  - exists e. repeat split; assumption.
Qed.

(** X3. Every key that [iter_all_aliases] yields is a non-empty,
    lower-case text without outer white space, and
    [canonicalize_allergen] resolves it to an entry of the table that
    declares it. *)
Theorem known_aliases_round_trip :
  forall k,
    k ∈ iter_all_aliases ->
    lower k = k /\ strip k = k /\ k <> EmptyString
    /\ exists e, e ∈ _CANONICAL_DATA /\ k ∈ entry_keys e
                 /\ canonicalize_allergen (PyStr k) = Ok (Some e).
Proof.
  intros k (Hl & Hs & Hne & e & He & Hk & Hget)%known_alias_resolves.
  split; [done|]. split; [done|]. split; [done|].
  exists e. split; [done|]. split; [done|].
  rewrite canonicalize_str, Hs, Hl, (truthy_true _ Hne). by rewrite Hget.
Qed.

Lemma known_aliases_round_trip_witness :
  lower "tree nuts" = "tree nuts" /\ strip "tree nuts" = "tree nuts"
  /\ "tree nuts" <> EmptyString
  /\ exists e, e ∈ _CANONICAL_DATA /\ "tree nuts" ∈ entry_keys e
               /\ canonicalize_allergen (PyStr "tree nuts") = Ok (Some e).
Proof.
  apply (known_aliases_round_trip "tree nuts").
  unfold iter_all_aliases. apply elem_of_dom.
  apply (bool_decide_unpack _). vm_compute. exact I.
Defined.

(** X4. Whenever [canonical_allergen_from_label] finds an entry for a
    value, [canonicalize_allergen] finds the same entry for it. *)
Theorem label_match_is_allergen_match :
  forall v e,
    canonical_allergen_from_label v = Ok (Some e) ->
    canonicalize_allergen v = Ok (Some e).
Proof.
  intros v e. destruct v as [|s|z|b|e'|l].
  - discriminate.
  - rewrite from_label_str. destruct (truthy s); [|discriminate].
    destruct (_CANONICAL_BY_LABEL !! lower (strip s)) as [e'|] eqn:Hl;
      [|discriminate].
    intros [= ->]. apply by_label_Some in Hl as [He Hk].
    assert (label e ∈ declared_texts e) as Hd by by left.
    destruct (declared_text_resolves e _ He Hd) as (_ & Hne & Hget).
    rewrite canonicalize_str, <- Hk, truthy_lower, (truthy_true _ Hne).
    by rewrite Hget.
  - unfold canonical_allergen_from_label. simpl.
    destruct (z =? 0)%Z; discriminate.
  - unfold canonical_allergen_from_label. simpl. destruct b; discriminate.
  - discriminate.
  - unfold canonical_allergen_from_label. simpl. destruct l; discriminate.
Qed.

Lemma label_match_is_allergen_match_witness :
  canonicalize_allergen (PyStr " MILK ") = Ok (Some milk_entry).
Proof.
  apply label_match_is_allergen_match. vm_compute. reflexivity.
Defined.

(** X5. Given as an allergen text, the slug of an entry of the table leads
    to that entry, with one exception: the slug "tree_nuts", written with an
    underscore, is no label and no alias, and has no match. *)
Theorem slug_as_allergen_text :
  (forall e,
      e ∈ _CANONICAL_DATA -> slug e <> "tree_nuts" ->
      canonicalize_allergen (PyStr (slug e)) = Ok (Some e))
  /\ canonicalize_allergen (PyStr "tree_nuts") = Ok None
  /\ is_Some (CANONICAL_ALLERGENS !! "tree_nuts").
Proof.
  split; [|split; [by vm_compute|]].
  - intros e He Hne. pose proof slugs_as_text_ok as H.
    unfold slugs_as_text in H. rewrite forallb_forall in H.
    specialize (H e (proj1 (list_elem_of_In _ _) He)).
    apply bool_decide_eq_true in H. by rewrite bool_decide_false in H.
  - apply (bool_decide_unpack _). vm_compute. exact I.
Qed.

Lemma slug_as_allergen_text_witness :
  canonicalize_allergen (PyStr "milk") = Ok (Some milk_entry).
Proof.
  apply (proj1 slug_as_allergen_text milk_entry).
  - apply (bool_decide_unpack _). vm_compute. exact I.
  - discriminate.
Defined.

(** X6. The entry found for a text can be found again from the entry
    itself: its label leads back to it through both lookups, and its slug
    through the slug index. *)
Theorem match_leads_back :
  forall s e,
    canonicalize_allergen (PyStr s) = Ok (Some e) ->
    canonicalize_allergen (PyStr (label e)) = Ok (Some e)
    /\ canonical_allergen_from_label (PyStr (label e)) = Ok (Some e)
    /\ CANONICAL_ALLERGENS !! slug e = Some e.
Proof.
  intros s e. rewrite canonicalize_str. destruct (truthy _); [|discriminate].
  destruct (_ALIAS_LOOKUP !! lower (strip s)) as [e'|] eqn:Hl; [|discriminate].
  intros [= ->]. apply alias_lookup_Some in Hl as [He _].
  split; [|split].
  - apply declared_text_found; [done|by left].
  - destruct (label_resolves e He) as (Hs & Hne & Hget).
    by rewrite from_label_str, Hs, Hget, (truthy_true _ Hne).
  - by apply slug_resolves.
Qed.

Lemma match_leads_back_witness :
  canonicalize_allergen (PyStr "Milk") = Ok (Some milk_entry)
  /\ canonical_allergen_from_label (PyStr "Milk") = Ok (Some milk_entry)
  /\ CANONICAL_ALLERGENS !! "milk" = Some milk_entry.
Proof.
  apply (match_leads_back " Yogurt" milk_entry). vm_compute. reflexivity.
Defined.

End MoreIndexFacts.

(** ** More on certainty *)

Section MoreCertainty.
Import PyString.

Lemma exact_agrees_with_scan_ok : exact_agrees_with_scan = true.
Proof. vm_compute. reflexivity. Qed.

Lemma certain_rules_first_ok : certain_rules_first = true.
Proof. vm_compute. reflexivity. Qed.

Lemma first_prefix_rule_empty : first_prefix_rule EmptyString = None.
Proof. vm_compute. reflexivity. Qed.

(** The exact lookup never changes the outcome: the value of a rule found
    by its own key is the value the scan ends on. *)
Lemma normalize_as_scan v :
  v <> PyNone ->
  normalize_certainty v
  = match py_str v with
    | Raise e => Raise e
    | Ok _ => Ok (snd <$> first_prefix_rule (certainty_text v))
    end.
Proof.
  intros Hv. rewrite (normalize_value v Hv), truthy_certainty_text.
  destruct (py_str v) as [converted|]; [|done].
  destruct (certainty_text v) as [|c t] eqn:Ht.
  - by rewrite first_prefix_rule_empty.
  - change (truthy (String c t)) with true. cbv iota.
    destruct (odict_get _CERTAINTY_NORMALIZATION_RULES (String c t))
      as [r|] eqn:Hget.
    + pose proof (odict_get_Some _ _ _ Hget) as Hin.
      destruct (rule_in_table _ _ Hin) as (_ & Htr & _). rewrite Htr.
      pose proof exact_agrees_with_scan_ok as H.
      unfold exact_agrees_with_scan in H. rewrite forallb_forall in H.
      specialize (H _ (proj1 (list_elem_of_In _ _) Hin)).
      apply bool_decide_eq_true in H. simpl fst in H. simpl snd in H.
      by rewrite H.
    + unfold first_prefix_rule. by rewrite prefix_scan_find.
Qed.

Lemma normalize_text_as_scan s :
  normalize_certainty (PyStr s)
  = Ok (snd <$> first_prefix_rule (certainty_text (PyStr s))).
Proof. by rewrite normalize_as_scan. Qed.

Lemma lettered_prefix c r k :
  is_letter c = false -> starts_with_letter k = true ->
  ~ starts_with (String c r) k.
Proof.
  intros Hc Hk [rest Hrest]. destruct k as [|d k]; [discriminate Hk|].
  rewrite append_cons in Hrest. injection Hrest as -> _.
  simpl in Hk. congruence.
Qed.

Lemma certain_keys_lettered k :
  k ∈ certain_keys -> starts_with_letter k = true.
Proof.
  assert (Forall (fun k => starts_with_letter k = true) certain_keys) as H.
  { apply (bool_decide_unpack _). vm_compute. exact I. }
  rewrite Forall_forall in H. apply H.
Qed.

Lemma rules_split :
  _CERTAINTY_NORMALIZATION_RULES
  = (map (fun k => (k, "certain")) certain_keys
     ++ skipn 6 _CERTAINTY_NORMALIZATION_RULES)%list
  /\ Forall (fun kv => snd kv = "likely")
       (skipn 6 _CERTAINTY_NORMALIZATION_RULES).
Proof.
  pose proof certain_rules_first_ok as H. unfold certain_rules_first in H.
  apply andb_true_iff in H as [H1 H2]. apply bool_decide_eq_true in H1.
  split; [exact H1|]. apply Forall_forall. intros kv Hin%list_elem_of_In.
  rewrite forallb_forall in H2. specialize (H2 kv Hin).
  by apply bool_decide_eq_true in H2.
Qed.

Lemma normalize_match_inv v r :
  normalize_certainty v = Ok (Some r) ->
  v <> PyNone
  /\ exists k, (k, r) ∈ _CERTAINTY_NORMALIZATION_RULES
               /\ starts_with (certainty_text v) k.
Proof.
  intros Hr. assert (v <> PyNone) as Hv by by intros ->.
  split; [done|]. rewrite (normalize_as_scan v Hv) in Hr.
  destruct (py_str v) as [converted|]; [|discriminate].
  unfold first_prefix_rule in Hr.
  destruct (find _ _) as [[k r']|] eqn:Hf; [|discriminate].
  injection Hr as ->. apply find_some in Hf as [Hin Hst].
  exists k. split; [by apply list_elem_of_In|]. by apply startswith_spec.
Qed.

Lemma normalize_match_values v r :
  normalize_certainty v = Ok (Some r) -> r = "certain" \/ r = "likely".
Proof.
  intros (_ & k & Hin & _)%normalize_match_inv.
  apply rule_in_table in Hin as (_ & _ & Hval & _).
  unfold certainty_values in Hval.
  apply elem_of_cons in Hval as [->|Hval]; [by left|].
  apply elem_of_cons in Hval as [->|Hval]; [by right|].
  by apply elem_of_nil in Hval.
Qed.

Lemma ui_result_values v :
  (forall x l, v <> PyList (x :: l)) ->
  exists u, certainty_to_ui v = Ok u /\ u ∈ ui_values.
Proof.
  intros Hv. assert (Hlikely : "likely" ∈ ui_values) by by left.
  unfold certainty_to_ui.
  destruct (py_truthy v) eqn:Htruthy; simpl; [|by exists "likely"].
  destruct v as [|s|z|b|e|l]; unfold dict_get, mbind, result_bind;
    try by exists "likely".
  - unfold _UI_CERTAINTY_MAP. rewrite !lookup_insert, lookup_empty.
    repeat case_decide; subst; simpl; eexists; (split; [reflexivity|]);
      apply (bool_decide_unpack _); by vm_compute.
  - destruct l as [|x l]; [discriminate Htruthy|]. by destruct (Hv x l).
Qed.

(** X7. For every value but [None] whose conversion to text returns, the
    result of [normalize_certainty] is the value of the first rule, in the
    order of the table, whose key is a prefix of the normalized text, also
    when that text is itself a key: the exact lookup never gives another
    value than the scan.  When the conversion raises, as for a number with
    more digits than the limit, [normalize_certainty] raises the same
    fault. *)
Theorem normalize_certainty_is_prefix_scan :
  forall v,
    v <> PyNone ->
    ((forall z, v = PyInt z -> int_str_overflows z = false) ->
     normalize_certainty v = Ok (snd <$> first_prefix_rule (certainty_text v))
     /\ normalize_certainty v
        = Ok (prefix_scan _CERTAINTY_NORMALIZATION_RULES (certainty_text v)))
    /\ (forall exn, py_str v = Raise exn -> normalize_certainty v = Raise exn)
    /\ (forall z,
          v = PyInt z -> int_str_overflows z = true ->
          normalize_certainty v = Raise ValueError).
Proof.
  intros v Hv. split; [|split].
  - intros Hz. rewrite prefix_scan_find.
    fold (first_prefix_rule (certainty_text v)).
    rewrite (normalize_as_scan v Hv).
    destruct (py_str_cases v) as [->|(z & -> & Hover & _)]; [done|].
    by rewrite (Hz z eq_refl) in Hover.
  - intros exn Hexn. by rewrite (normalize_as_scan v Hv), Hexn.
  - intros z -> Hover. by rewrite normalize_number, Hover.
Qed.

Lemma normalize_certainty_is_prefix_scan_witness :
  (normalize_certainty (PyStr " High  Confidence ")
   = Ok (snd <$> first_prefix_rule "high confidence")
   /\ normalize_certainty (PyStr " High  Confidence ")
      = Ok (prefix_scan _CERTAINTY_NORMALIZATION_RULES "high confidence"))
  /\ normalize_certainty (PyInt (10 ^ 4300)) = Raise ValueError.
Proof.
  split.
  - apply (normalize_certainty_is_prefix_scan (PyStr " High  Confidence ")).
    + discriminate.
    + intros z H. discriminate H.
  - apply (normalize_certainty_is_prefix_scan (PyInt (10 ^ 4300)))
      with (z := (10 ^ 4300)%Z).
    + discriminate.
    + reflexivity.
    + vm_compute. reflexivity.
Defined.

(** X8. [normalize_certainty] answers "certain" exactly when the normalized
    text begins with one of the six keys certain, definite, explicit, sure,
    confirmed, direct; every other match is "likely". *)
Theorem certain_iff_certain_prefix :
  forall v,
    (normalize_certainty v = Ok (Some "certain") <->
     v <> PyNone
     /\ exists k, k ∈ certain_keys /\ starts_with (certainty_text v) k)
    /\ (forall r,
          normalize_certainty v = Ok (Some r) -> r <> "certain" -> r = "likely").
Proof.
  intros v. destruct rules_split as [Hsplit Hrest]. split; [split|].
  - intros (Hv & k & Hin & Hst)%normalize_match_inv. split; [done|].
    exists k. split; [|done]. rewrite Hsplit in Hin.
    apply elem_of_app in Hin as [Hin|Hin].
    + apply list_elem_of_fmap in Hin as (k' & [= ->] & Hk'). done.
    + rewrite Forall_forall in Hrest. specialize (Hrest _ Hin). discriminate.
  - intros (Hv & k & Hk & Hst). rewrite (normalize_as_scan v Hv).
    destruct (py_str_cases v) as [->|(z & -> & _ & _)].
    2: { exfalso. destruct (int_certainty_text z) as (c & r & Hct & Hlet).
         rewrite Hct in Hst.
         by apply (lettered_prefix c r k Hlet (certain_keys_lettered k Hk)). }
    unfold first_prefix_rule. rewrite Hsplit, find_app.
    destruct (find _ (map _ certain_keys)) as [p|] eqn:Hf.
    + apply find_some in Hf as [Hin _].
      apply in_map_iff in Hin as (k' & <- & _). done.
    + exfalso. rewrite find_none_Forall, Forall_forall in Hf.
      assert ((k, "certain") ∈ map (fun k => (k, "certain")) certain_keys)
        as Hin by (apply list_elem_of_fmap; by exists k).
      specialize (Hf _ Hin). simpl in Hf.
      apply startswith_spec in Hst. congruence.
  - intros r Hr Hne. by destruct (normalize_match_values v r Hr).
Qed.

Lemma certain_iff_certain_prefix_witness :
  normalize_certainty (PyStr "Surely not") = Ok (Some "certain").
Proof.
  apply (proj1 (certain_iff_certain_prefix (PyStr "Surely not"))).
  split; [discriminate|]. exists "sure". split.
  - apply (bool_decide_unpack _). vm_compute. exact I.
  - by exists "ly not".
Defined.

(** X9. Handing the result of [normalize_certainty] to [certainty_to_ui]
    gives that result, or "likely" when there was no match: the outcome is
    "certain" or "likely" and never "confirmed". *)
Theorem normalize_then_ui :
  forall v r,
    normalize_certainty v = Ok r ->
    certainty_to_ui (py_of_option r) = Ok (default "likely" r)
    /\ default "likely" r ∈ certainty_values.
Proof.
  intros v [r| ] Hr; [|split; [done|by right; left]].
  destruct (normalize_match_values v r Hr) as [-> | ->].
  - split; [by vm_compute|by left].
  - split; [by vm_compute|by right; left].
Qed.

Lemma normalize_then_ui_witness :
  certainty_to_ui (py_of_option (Some "certain")) = Ok "certain"
  /\ "certain" ∈ certainty_values.
Proof.
  apply (normalize_then_ui (PyStr "Confirmed") (Some "certain")).
  vm_compute. reflexivity.
Defined.

(** X10. [certainty_to_ui] applied to its own result gives that result
    again, for every value it returns on (any value but a non-empty
    list). *)
Theorem certainty_to_ui_idempotent :
  forall v,
    (forall x l, v <> PyList (x :: l)) ->
    exists u, certainty_to_ui v = Ok u /\ certainty_to_ui (PyStr u) = Ok u.
Proof.
  intros v Hv. destruct (ui_result_values v Hv) as (u & Hu & Hin).
  exists u. split; [done|]. unfold ui_values in Hin.
  repeat (apply elem_of_cons in Hin as [->|Hin]; [by vm_compute|]).
  by apply elem_of_nil in Hin.
Qed.

Lemma certainty_to_ui_idempotent_witness :
  exists u,
    certainty_to_ui (PyStr "Confirmed") = Ok u
    /\ certainty_to_ui (PyStr u) = Ok u.
Proof.
  apply (certainty_to_ui_idempotent (PyStr "Confirmed")).
  intros x l H. discriminate H.
Defined.

(** X11. A match of [normalize_certainty] is normalized to itself. *)
Theorem normalize_certainty_idempotent :
  forall v r,
    normalize_certainty v = Ok (Some r) ->
    normalize_certainty (PyStr r) = Ok (Some r).
Proof.
  intros v r Hr. destruct (normalize_match_values v r Hr) as [-> | ->];
    by vm_compute.
Qed.

Lemma normalize_certainty_idempotent_witness :
  normalize_certainty (PyStr "likely") = Ok (Some "likely").
Proof.
  apply (normalize_certainty_idempotent (PyStr " Very   HIGH ")).
  vm_compute. reflexivity.
Defined.

(** X12. [normalize_certainty] depends on a text only through its
    normalized form, which is stable: two texts with the same trimmed,
    lower-cased, collapsed form get the same result, and a text and its
    normalized form get the same result. *)
Theorem normalize_certainty_text_invariant :
  (forall s t,
      certainty_text (PyStr s) = certainty_text (PyStr t) ->
      normalize_certainty (PyStr s) = normalize_certainty (PyStr t))
  /\ (forall s,
        certainty_text (PyStr (certainty_text (PyStr s)))
        = certainty_text (PyStr s))
  /\ (forall s,
        normalize_certainty (PyStr (certainty_text (PyStr s)))
        = normalize_certainty (PyStr s)).
Proof.
  assert (Hinv : forall s t,
             certainty_text (PyStr s) = certainty_text (PyStr t) ->
             normalize_certainty (PyStr s) = normalize_certainty (PyStr t)).
  { intros s t Heq. rewrite !normalize_text_as_scan. by rewrite Heq. }
  split; [exact Hinv|]. split.
  - intros s. apply certainty_text_idem.
  - intros s. apply Hinv, certainty_text_idem.
Qed.

Lemma normalize_certainty_text_invariant_witness :
  normalize_certainty (PyStr "  MOST   likely ")
  = normalize_certainty (PyStr "most likely").
Proof.
  apply (proj1 normalize_certainty_text_invariant). vm_compute. reflexivity.
Defined.

End MoreCertainty.

(** ** Values that are not text *)

Section NonText.
Import PyString.

Lemma entry_text_head e :
  exists rest, py_text (PyCanonical e) = String "C" (String "a" rest).
Proof. eexists. reflexivity. Qed.

Lemma entry_certainty_text e :
  exists rest, certainty_text (PyCanonical e) = String "c" (String "a" rest).
Proof.
  unfold certainty_text. destruct (entry_text_head e) as [rest ->].
  rewrite normal_form_head by reflexivity.
  rewrite (rstrip_cons_visible "a") by reflexivity.
  by eexists.
Qed.

Lemma entry_unknown_certainty e : normalize_certainty (PyCanonical e) = Ok None.
Proof.
  rewrite normalize_as_scan by done.
  change (py_str (PyCanonical e)) with (Ok (py_text (PyCanonical e))).
  cbv iota. destruct (entry_certainty_text e) as [rest ->]. reflexivity.
Qed.

Lemma list_normal_form l :
  exists r, lower (strip (py_text (PyList l))) = String "[" r.
Proof.
  assert (exists rest, py_text (PyList l) = String "[" rest) as [rest ->]
    by (eexists; reflexivity).
  rewrite normal_form_head by reflexivity. by eexists.
Qed.

Lemma list_unknown l :
  canonicalize_allergen (PyList l) = Ok None
  /\ normalize_certainty (PyList l) = Ok None.
Proof.
  destruct (list_normal_form l) as [r Hnf].
  assert (is_letter "[" = false) as Hlet by reflexivity.
  split.
  - unfold canonicalize_allergen, py_str, mbind, result_bind. rewrite Hnf.
    change (truthy (String "[" r)) with true. cbv iota beta. simpl negb.
    cbv iota. by rewrite (proj1 (unlettered_text_unknown _ r Hlet)).
  - rewrite normalize_as_scan by done.
    change (py_str (PyList l)) with (Ok (py_text (PyList l))). cbv iota.
    unfold certainty_text. rewrite Hnf.
    change (collapse_whitespace (String "[" r))
      with (String "[" (collapse_from false r)).
    by rewrite (proj2 (unlettered_text_unknown _ _ Hlet)).
Qed.

(** X13. A value that is not a text is never recognised as a certainty:
    for [None], a boolean, a canonical entry, a list of texts and a number
    whose conversion to text returns, [normalize_certainty] has no match,
    and [certainty_to_ui] gives "likely" for each of them but a non-empty
    list.  A boolean, a list or such a number is no allergen either:
    [canonicalize_allergen] has no match for it.  A number with more digits
    than the limit makes both functions raise [ValueError]. *)
Theorem non_text_values_unknown :
  forall v,
    (forall s, v <> PyStr s) ->
    ((forall z, v = PyInt z -> int_str_overflows z = false) ->
     normalize_certainty v = Ok None
     /\ ((forall e, v <> PyCanonical e) -> canonicalize_allergen v = Ok None))
    /\ ((forall x l, v <> PyList (x :: l)) -> certainty_to_ui v = Ok "likely")
    /\ (forall z,
          v = PyInt z -> int_str_overflows z = true ->
          normalize_certainty v = Raise ValueError
          /\ canonicalize_allergen v = Raise ValueError).
Proof.
  intros v Hv. split; [|split].
  - intros Hz. destruct v as [|s|z|b|e|l].
    + by split.
    + by destruct (Hv s).
    + by rewrite normalize_number, canonicalize_number, (Hz z eq_refl).
    + split; [destruct b; by vm_compute|]. intros _. destruct b; by vm_compute.
    + split; [apply entry_unknown_certainty|]. intros He. by destruct (He e).
    + destruct (list_unknown l) as [Hc Hn]. by split.
  - intros Hl. unfold certainty_to_ui.
    destruct (py_truthy v) eqn:Htruthy; simpl; [|done].
    destruct v as [|s|z|b|e|l]; try reflexivity.
    + by destruct (Hv s).
    + destruct l as [|x l]; [discriminate Htruthy|]. by destruct (Hl x l).
  - intros z -> Hover. by rewrite normalize_number, canonicalize_number, Hover.
Qed.

Lemma non_text_values_unknown_witness :
  normalize_certainty (PyInt (-42)) = Ok None
  /\ certainty_to_ui (PyInt (-42)) = Ok "likely"
  /\ canonicalize_allergen (PyInt (-42)) = Ok None
  /\ canonicalize_allergen (PyInt (- 10 ^ 4300)) = Raise ValueError.
Proof.
  assert (forall s, PyInt (-42) <> PyStr s) as Hv.
  { intros s H. discriminate H. }
  assert (forall s, PyInt (- 10 ^ 4300) <> PyStr s) as Hw.
  { intros s H. discriminate H. }
  destruct (non_text_values_unknown (PyInt (-42)) Hv) as (Hn & Hu & _).
  destruct (non_text_values_unknown (PyInt (- 10 ^ 4300)) Hw) as (_ & _ & Hr).
  destruct Hn as [Hn Hc].
  { intros z [= <-]. vm_compute. reflexivity. }
  split; [exact Hn|]. split; [|split].
  - apply Hu. intros x l H. discriminate H.
  - apply Hc. intros e H. discriminate H.
  - apply (Hr (- 10 ^ 4300)%Z eq_refl). vm_compute. reflexivity.
Defined.

(** X14. A text whose trimmed form begins with anything but a letter, such
    as a digit, a sign or a bracket, is no allergen and no certainty: both
    [canonicalize_allergen] and [normalize_certainty] have no match. *)
Theorem unlettered_text_no_match :
  forall s c r,
    lower (strip s) = String c r -> is_letter c = false ->
    canonicalize_allergen (PyStr s) = Ok None
    /\ normalize_certainty (PyStr s) = Ok None.
Proof.
  intros s c r Hs Hc.
  destruct (unlettered_text_unknown c r Hc) as [Hidx _]. split.
  - rewrite canonicalize_str, Hs.
    change (truthy (String c r)) with true. cbv iota. by rewrite Hidx.
  - assert (isspace c = false) as Hsp.
    { pose proof (strip_normal_form s) as Hst. rewrite Hs in Hst.
      by apply stripped_parts in Hst as [Hh _]. }
    rewrite normalize_text_as_scan. unfold certainty_text, py_text.
    rewrite Hs. unfold collapse_whitespace. simpl collapse_from. rewrite Hsp.
    by rewrite (proj2 (unlettered_text_unknown c _ Hc)).
Qed.

Lemma unlettered_text_no_match_witness :
  canonicalize_allergen (PyStr " (Milk)") = Ok None
  /\ normalize_certainty (PyStr " (Milk)") = Ok None.
Proof.
  apply (unlettered_text_no_match " (Milk)" "(" "milk)"); reflexivity.
Defined.

End NonText.
